(** * Session orchestrator of xn_esp32_audio: lifecycle, rollback and event relay

    A shallow embedding of [components/xn_audio_manager/src/audio_manager.c]
    (and of the configuration builder [main/audio_config_app.c]).

    The orchestrator keeps one static context [s_ctx] and talks to five
    collaborators (I2S HAL, ring buffer, playback controller, AFE wrapper,
    button handler) through their C interfaces.  The context is a record, the
    collaborators are an interface (a type class over an abstract collaborator
    state [W]), and every orchestrator function is a computation in a small
    state-and-log monad: it threads the context and the collaborator state and
    records, in call order, each call that crosses the orchestrator boundary. *)

From Stdlib Require Import ZArith NArith List String Bool Lia.
Import ListNotations.
Open Scope Z_scope.

(** ** Pointers and error codes *)

(** Every handle and every application function pointer is an opaque address;
    the null pointer is address 0 and [!p] is [is_null p]. *)
Definition ptr := N.
Definition NULL : ptr := 0%N.
Definition is_null (p : ptr) : bool := N.eqb p NULL.

(** [esp_err_t] is an [int]; the constants are those of ESP-IDF's esp_err.h. *)
Definition esp_err_t := Z.
Definition ESP_OK : esp_err_t := 0.
Definition ESP_ERR_NO_MEM : esp_err_t := 0x101.
Definition ESP_ERR_INVALID_ARG : esp_err_t := 0x102.
Definition ESP_ERR_INVALID_STATE : esp_err_t := 0x103.

(** A [const int16_t *] argument: [None] is the null pointer, [Some l] a
    pointer to the samples [l].  The sample count travels separately, as in C. *)
Definition pcm_ptr := option (list Z).

(** ** Configuration constants of audio_manager.c *)

Definition PLAYBACK_FRAME_SAMPLES : Z := 1024.
Definition PLAYBACK_BUFFER_SIZE : Z := 512 * 1024.
Definition REFERENCE_BUFFER_SIZE : Z := 16 * 1024.
Definition sizeof_int16_t : Z := 2.

(** ** Records of audio_manager.h

    Modelled from the spec: the header audio_manager.h is not among the
    sources; the records below have exactly the fields that audio_manager.c
    and audio_config_app.c read or write, under their C names.  Integer
    fields are [Z], [const char *] fields are strings. *)

Record audio_mgr_mic_config_t := {
  mic_port : Z;
  mic_bclk_gpio : Z;
  mic_lrck_gpio : Z;
  mic_din_gpio : Z;
  mic_sample_rate : Z;
  mic_bits : Z
}.

Record audio_mgr_speaker_config_t := {
  speaker_port : Z;
  speaker_bclk_gpio : Z;
  speaker_lrck_gpio : Z;
  speaker_dout_gpio : Z;
  speaker_sample_rate : Z;
  speaker_bits : Z
}.

Record audio_mgr_button_config_t := {
  button_gpio : Z;
  button_active_low : bool
}.

Record audio_mgr_hw_config_t := {
  mic : audio_mgr_mic_config_t;
  speaker : audio_mgr_speaker_config_t;
  button : audio_mgr_button_config_t
}.

Record audio_mgr_wakeup_config_t := {
  wakeup_enabled : bool;
  wake_word_name : string;
  model_partition : string;
  sensitivity : Z;
  wakeup_timeout_ms : Z;
  wakeup_end_delay_ms : Z
}.

Record audio_mgr_vad_config_t := {
  vad_enabled : bool;
  vad_mode : Z;
  min_speech_ms : Z;
  min_silence_ms : Z
}.

Record audio_mgr_afe_config_t := {
  aec_enabled : bool;
  ns_enabled : bool;
  agc_enabled : bool;
  afe_mode : Z
}.

Record audio_mgr_config_t := {
  hw_config : audio_mgr_hw_config_t;
  wakeup_config : audio_mgr_wakeup_config_t;
  vad_config : audio_mgr_vad_config_t;
  afe_config : audio_mgr_afe_config_t;
  event_callback : ptr;
  user_ctx : ptr
}.

(** The payload of a wake-word event.  The numeric type of [volume_db] is
    declared in the absent header; the value is only ever copied. *)
Record wakeup_data_t := {
  wake_word_index : Z;
  volume_db : Z
}.

(** [audio_mgr_event_t]: a discriminant (a C enum, hence an [int]) and the
    payload union, of which [wakeup] is the only member the source touches. *)
Record audio_mgr_event_t := {
  ev_type : Z;
  ev_wakeup : wakeup_data_t
}.

(** [afe_event_t] of afe_wrapper.h, with the same shape. *)
Record afe_event_t := {
  afe_type : Z;
  afe_wakeup : wakeup_data_t
}.

(** Modelled from the spec: the enumerators of audio_manager.h,
    afe_wrapper.h and button_handler.h are not among the sources, so their
    integer values are parameters of the development. *)
Class Enumerators := {
  AUDIO_MGR_EVENT_BUTTON_TRIGGER : Z;
  AUDIO_MGR_EVENT_BUTTON_RELEASE : Z;
  AUDIO_MGR_EVENT_WAKEUP_DETECTED : Z;
  AUDIO_MGR_EVENT_VAD_START : Z;
  AUDIO_MGR_EVENT_VAD_END : Z;
  AFE_EVENT_WAKEUP_DETECTED : Z;
  AFE_EVENT_VAD_START : Z;
  AFE_EVENT_VAD_END : Z;
  BUTTON_EVENT_PRESS : Z;
  BUTTON_EVENT_RELEASE : Z
}.

(** ** Records handed to the collaborators *)

(** The static handlers of audio_manager.c whose addresses are stored in the
    collaborators' configurations ([Fn_NULL] where the source writes NULL). *)
Inductive handler_ref :=
| Fn_NULL
| Fn_afe_event_handler
| Fn_afe_record_handler
| Fn_button_event_handler.

(** Addresses of fields of the static context that are shared by pointer. *)
Inductive field_ref :=
| Ref_volume
| Ref_running
| Ref_recording.

Record i2s_mic_config_t := {
  i2s_mic_port : Z;
  i2s_mic_bclk_gpio : Z;
  i2s_mic_lrck_gpio : Z;
  i2s_mic_din_gpio : Z;
  i2s_mic_sample_rate : Z;
  i2s_mic_bits : Z;
  i2s_mic_max_frame_samples : Z;
  i2s_mic_bit_shift : Z
}.

Record i2s_speaker_config_t := {
  i2s_spk_port : Z;
  i2s_spk_bclk_gpio : Z;
  i2s_spk_lrck_gpio : Z;
  i2s_spk_dout_gpio : Z;
  i2s_spk_sample_rate : Z;
  i2s_spk_bits : Z;
  i2s_spk_max_frame_samples : Z
}.

Record playback_controller_config_t := {
  pb_i2s_hal : ptr;
  pb_playback_buffer_samples : Z;
  pb_reference_buffer_samples : Z;
  pb_frame_samples : Z;
  pb_reference_callback : handler_ref;
  pb_reference_ctx : ptr;
  pb_volume_ptr : field_ref
}.

Record afe_wakeup_config_t := {
  afe_wakeup_enabled : bool;
  afe_wake_word_name : string;
  afe_model_partition : string;
  afe_sensitivity : Z
}.

Record afe_vad_config_t := {
  afe_vad_enabled : bool;
  afe_vad_mode : Z;
  afe_min_speech_ms : Z;
  afe_min_silence_ms : Z
}.

Record afe_feature_config_t := {
  afe_aec_enabled : bool;
  afe_ns_enabled : bool;
  afe_agc_enabled : bool;
  afe_feature_mode : Z
}.

Record afe_wrapper_config_t := {
  afe_i2s_hal : ptr;
  afe_reference_rb : ptr;
  afe_cfg_wakeup : afe_wakeup_config_t;
  afe_cfg_vad : afe_vad_config_t;
  afe_cfg_feature : afe_feature_config_t;
  afe_event_callback : handler_ref;
  afe_event_ctx : ptr;
  afe_record_callback : handler_ref;
  afe_record_ctx : ptr;
  afe_running_ptr : field_ref;
  afe_recording_ptr : field_ref
}.

Record button_handler_config_t := {
  btn_gpio : Z;
  btn_active_low : bool;
  btn_debounce_ms : Z;
  btn_callback : handler_ref;
  btn_user_ctx : ptr
}.

(** ** The orchestrator context: [audio_manager_ctx_t] *)

Record audio_manager_ctx_t := {
  config : audio_mgr_config_t;
  i2s_hal : ptr;
  playback_ctrl : ptr;
  button_handler : ptr;
  afe_wrapper : ptr;
  reference_rb : ptr;
  initialized : bool;
  running : bool;
  recording : bool;
  volume : Z;
  record_callback : ptr;
  record_ctx : ptr
}.

(** The all-zero configuration and context: what [= {0}] and [memset(.., 0, ..)]
    produce (null pointers, [false], 0, and null strings read as empty). *)
Definition audio_mgr_config_zero : audio_mgr_config_t :=
  {| hw_config :=
       {| mic := {| mic_port := 0; mic_bclk_gpio := 0; mic_lrck_gpio := 0;
                    mic_din_gpio := 0; mic_sample_rate := 0; mic_bits := 0 |};
          speaker := {| speaker_port := 0; speaker_bclk_gpio := 0;
                        speaker_lrck_gpio := 0; speaker_dout_gpio := 0;
                        speaker_sample_rate := 0; speaker_bits := 0 |};
          button := {| button_gpio := 0; button_active_low := false |} |};
     wakeup_config :=
       {| wakeup_enabled := false; wake_word_name := EmptyString;
          model_partition := EmptyString; sensitivity := 0;
          wakeup_timeout_ms := 0; wakeup_end_delay_ms := 0 |};
     vad_config :=
       {| vad_enabled := false; vad_mode := 0; min_speech_ms := 0;
          min_silence_ms := 0 |};
     afe_config :=
       {| aec_enabled := false; ns_enabled := false; agc_enabled := false;
          afe_mode := 0 |};
     event_callback := NULL;
     user_ctx := NULL |}.

Definition s_ctx_zero : audio_manager_ctx_t :=
  {| config := audio_mgr_config_zero;
     i2s_hal := NULL; playback_ctrl := NULL; button_handler := NULL;
     afe_wrapper := NULL; reference_rb := NULL;
     initialized := false; running := false; recording := false;
     volume := 0;
     record_callback := NULL; record_ctx := NULL |}.

(** Field assignments on the context. *)
Definition set_config (v : audio_mgr_config_t) (c : audio_manager_ctx_t) :=
  {| config := v; i2s_hal := i2s_hal c; playback_ctrl := playback_ctrl c;
     button_handler := button_handler c; afe_wrapper := afe_wrapper c;
     reference_rb := reference_rb c; initialized := initialized c;
     running := running c; recording := recording c; volume := volume c;
     record_callback := record_callback c; record_ctx := record_ctx c |}.

Definition set_i2s_hal (v : ptr) (c : audio_manager_ctx_t) :=
  {| config := config c; i2s_hal := v; playback_ctrl := playback_ctrl c;
     button_handler := button_handler c; afe_wrapper := afe_wrapper c;
     reference_rb := reference_rb c; initialized := initialized c;
     running := running c; recording := recording c; volume := volume c;
     record_callback := record_callback c; record_ctx := record_ctx c |}.

Definition set_playback_ctrl (v : ptr) (c : audio_manager_ctx_t) :=
  {| config := config c; i2s_hal := i2s_hal c; playback_ctrl := v;
     button_handler := button_handler c; afe_wrapper := afe_wrapper c;
     reference_rb := reference_rb c; initialized := initialized c;
     running := running c; recording := recording c; volume := volume c;
     record_callback := record_callback c; record_ctx := record_ctx c |}.

Definition set_button_handler (v : ptr) (c : audio_manager_ctx_t) :=
  {| config := config c; i2s_hal := i2s_hal c; playback_ctrl := playback_ctrl c;
     button_handler := v; afe_wrapper := afe_wrapper c;
     reference_rb := reference_rb c; initialized := initialized c;
     running := running c; recording := recording c; volume := volume c;
     record_callback := record_callback c; record_ctx := record_ctx c |}.

Definition set_afe_wrapper (v : ptr) (c : audio_manager_ctx_t) :=
  {| config := config c; i2s_hal := i2s_hal c; playback_ctrl := playback_ctrl c;
     button_handler := button_handler c; afe_wrapper := v;
     reference_rb := reference_rb c; initialized := initialized c;
     running := running c; recording := recording c; volume := volume c;
     record_callback := record_callback c; record_ctx := record_ctx c |}.

Definition set_reference_rb (v : ptr) (c : audio_manager_ctx_t) :=
  {| config := config c; i2s_hal := i2s_hal c; playback_ctrl := playback_ctrl c;
     button_handler := button_handler c; afe_wrapper := afe_wrapper c;
     reference_rb := v; initialized := initialized c;
     running := running c; recording := recording c; volume := volume c;
     record_callback := record_callback c; record_ctx := record_ctx c |}.

Definition set_initialized (v : bool) (c : audio_manager_ctx_t) :=
  {| config := config c; i2s_hal := i2s_hal c; playback_ctrl := playback_ctrl c;
     button_handler := button_handler c; afe_wrapper := afe_wrapper c;
     reference_rb := reference_rb c; initialized := v;
     running := running c; recording := recording c; volume := volume c;
     record_callback := record_callback c; record_ctx := record_ctx c |}.

Definition set_running (v : bool) (c : audio_manager_ctx_t) :=
  {| config := config c; i2s_hal := i2s_hal c; playback_ctrl := playback_ctrl c;
     button_handler := button_handler c; afe_wrapper := afe_wrapper c;
     reference_rb := reference_rb c; initialized := initialized c;
     running := v; recording := recording c; volume := volume c;
     record_callback := record_callback c; record_ctx := record_ctx c |}.

Definition set_recording (v : bool) (c : audio_manager_ctx_t) :=
  {| config := config c; i2s_hal := i2s_hal c; playback_ctrl := playback_ctrl c;
     button_handler := button_handler c; afe_wrapper := afe_wrapper c;
     reference_rb := reference_rb c; initialized := initialized c;
     running := running c; recording := v; volume := volume c;
     record_callback := record_callback c; record_ctx := record_ctx c |}.

Definition set_volume (v : Z) (c : audio_manager_ctx_t) :=
  {| config := config c; i2s_hal := i2s_hal c; playback_ctrl := playback_ctrl c;
     button_handler := button_handler c; afe_wrapper := afe_wrapper c;
     reference_rb := reference_rb c; initialized := initialized c;
     running := running c; recording := recording c; volume := v;
     record_callback := record_callback c; record_ctx := record_ctx c |}.

Definition set_record_callback (cb uc : ptr) (c : audio_manager_ctx_t) :=
  {| config := config c; i2s_hal := i2s_hal c; playback_ctrl := playback_ctrl c;
     button_handler := button_handler c; afe_wrapper := afe_wrapper c;
     reference_rb := reference_rb c; initialized := initialized c;
     running := running c; recording := recording c; volume := volume c;
     record_callback := cb; record_ctx := uc |}.

(** [memcpy(&s_ctx.config.wakeup_config, config, sizeof ...)]. *)
Definition set_wakeup_config (v : audio_mgr_wakeup_config_t)
  (g : audio_mgr_config_t) : audio_mgr_config_t :=
  {| hw_config := hw_config g; wakeup_config := v; vad_config := vad_config g;
     afe_config := afe_config g; event_callback := event_callback g;
     user_ctx := user_ctx g |}.

(** ** The collaborators' interface

    The functions of i2s_hal.h, ring_buffer.h, playback_controller.h,
    afe_wrapper.h and button_handler.h that the orchestrator calls, and the
    application's two callbacks.  Their code is outside the orchestrator: each
    is a function of the collaborators' own state [W] (a [create] returns the
    new handle, or [NULL] on failure).  The orchestrator is verified against
    every implementation of this interface. *)
Class Collaborators (W : Type) := {
  i2s_hal_create : i2s_mic_config_t -> i2s_speaker_config_t -> W -> ptr * W;
  i2s_hal_destroy : ptr -> W -> W;
  ring_buffer_create : Z -> bool -> W -> ptr * W;
  ring_buffer_destroy : ptr -> W -> W;
  playback_controller_create : playback_controller_config_t -> W -> ptr * W;
  playback_controller_destroy : ptr -> W -> W;
  playback_controller_get_reference_buffer : ptr -> W -> ptr * W;
  playback_controller_write : ptr -> pcm_ptr -> Z -> W -> esp_err_t * W;
  playback_controller_get_free_space : ptr -> W -> Z * W;
  playback_controller_start : ptr -> W -> esp_err_t * W;
  playback_controller_stop : ptr -> W -> esp_err_t * W;
  playback_controller_clear : ptr -> W -> esp_err_t * W;
  playback_controller_is_running : ptr -> W -> bool * W;
  afe_wrapper_create : afe_wrapper_config_t -> W -> ptr * W;
  afe_wrapper_destroy : ptr -> W -> W;
  afe_wrapper_update_wakeup_config :
    ptr -> afe_wakeup_config_t -> W -> esp_err_t * W;
  button_handler_create : button_handler_config_t -> W -> ptr * W;
  button_handler_destroy : ptr -> W -> W;
  app_event_callback : ptr -> audio_mgr_event_t -> ptr -> W -> W;
  app_record_callback : ptr -> pcm_ptr -> Z -> ptr -> W -> W
}.

(** One entry of the call log: the function called, its arguments and, where
    it has one, its result. *)
Inductive call :=
| Call_i2s_hal_create (m : i2s_mic_config_t) (s : i2s_speaker_config_t) (r : ptr)
| Call_i2s_hal_destroy (h : ptr)
| Call_ring_buffer_create (n : Z) (f : bool) (r : ptr)
| Call_ring_buffer_destroy (h : ptr)
| Call_playback_controller_create (c : playback_controller_config_t) (r : ptr)
| Call_playback_controller_destroy (h : ptr)
| Call_playback_controller_get_reference_buffer (h : ptr) (r : ptr)
| Call_playback_controller_write (h : ptr) (p : pcm_ptr) (n : Z) (r : esp_err_t)
| Call_playback_controller_get_free_space (h : ptr) (r : Z)
| Call_playback_controller_start (h : ptr) (r : esp_err_t)
| Call_playback_controller_stop (h : ptr) (r : esp_err_t)
| Call_playback_controller_clear (h : ptr) (r : esp_err_t)
| Call_playback_controller_is_running (h : ptr) (r : bool)
| Call_afe_wrapper_create (c : afe_wrapper_config_t) (r : ptr)
| Call_afe_wrapper_destroy (h : ptr)
| Call_afe_wrapper_update_wakeup_config (h : ptr) (c : afe_wakeup_config_t)
    (r : esp_err_t)
| Call_button_handler_create (c : button_handler_config_t) (r : ptr)
| Call_button_handler_destroy (h : ptr)
| Call_event_callback (cb : ptr) (ev : audio_mgr_event_t) (uc : ptr)
| Call_record_callback (cb : ptr) (p : pcm_ptr) (n : Z) (uc : ptr).

(** The five kinds of objects that [audio_manager_init] creates, in creation
    order, and the reading of a log entry as a creation or a destruction. *)
Inductive module_kind := I2sHal | RingBuffer | PlaybackCtrl | AfeWrapper | ButtonHandler.

Definition module_kind_eqb (a b : module_kind) : bool :=
  match a, b with
  | I2sHal, I2sHal | RingBuffer, RingBuffer | PlaybackCtrl, PlaybackCtrl
  | AfeWrapper, AfeWrapper | ButtonHandler, ButtonHandler => true
  | _, _ => false
  end.

Definition creation_order : list module_kind :=
  [I2sHal; RingBuffer; PlaybackCtrl; AfeWrapper; ButtonHandler].

Definition creation_of (c : call) : option (module_kind * ptr) :=
  match c with
  | Call_i2s_hal_create _ _ r => Some (I2sHal, r)
  | Call_ring_buffer_create _ _ r => Some (RingBuffer, r)
  | Call_playback_controller_create _ r => Some (PlaybackCtrl, r)
  | Call_afe_wrapper_create _ r => Some (AfeWrapper, r)
  | Call_button_handler_create _ r => Some (ButtonHandler, r)
  | _ => None
  end.

Definition destruction_of (c : call) : option (module_kind * ptr) :=
  match c with
  | Call_i2s_hal_destroy h => Some (I2sHal, h)
  | Call_ring_buffer_destroy h => Some (RingBuffer, h)
  | Call_playback_controller_destroy h => Some (PlaybackCtrl, h)
  | Call_afe_wrapper_destroy h => Some (AfeWrapper, h)
  | Call_button_handler_destroy h => Some (ButtonHandler, h)
  | _ => None
  end.

Fixpoint pick {A B : Type} (f : A -> option B) (l : list A) : list B :=
  match l with
  | [] => []
  | a :: l' =>
      match f a with
      | Some b => b :: pick f l'
      | None => pick f l'
      end
  end.

(** Creation attempts (with the handle returned, [NULL] for a failure) and
    destructions found in a log, in call order. *)
Definition creations (l : list call) : list (module_kind * ptr) := pick creation_of l.
Definition destructions (l : list call) : list (module_kind * ptr) := pick destruction_of l.

(** The creations that succeeded. *)
Definition created (l : list call) : list (module_kind * ptr) :=
  filter (fun kp => negb (is_null (snd kp))) (creations l).

(** Number of creation calls of kind [k] in a log. *)
Definition creation_count (k : module_kind) (l : list call) : nat :=
  List.length (filter (fun kp => module_kind_eqb (fst kp) k) (creations l)).

(** The modules whose handle the context owns: everything but the ring
    buffer, which the playback controller manages once it exists. *)
Definition owned (kp : module_kind * ptr) : bool :=
  negb (module_kind_eqb (fst kp) RingBuffer).

(** Whether a log touches the playback buffer (a write or a clear). *)
Definition touches_playback_buffer (c : call) : bool :=
  match c with
  | Call_playback_controller_write _ _ _ _ => true
  | Call_playback_controller_clear _ _ => true
  | _ => false
  end.

(** ** The orchestrator monad *)

Section Orchestrator.

Context {W : Type} {E : Enumerators} {C : Collaborators W}.

(** The state a call runs in: the static context [s_ctx] and the
    collaborators' state. *)
Record state := {
  s_ctx : audio_manager_ctx_t;
  world : W
}.

(** A computation returns a value, the next state and the calls it made. *)
Definition M (A : Type) : Type := state -> A * state * list call.

Definition ret {A : Type} (a : A) : M A := fun s => (a, s, []).

Definition bind {A B : Type} (m : M A) (k : A -> M B) : M B :=
  fun s =>
    match m s with
    | (a, s1, l1) =>
        match k a s1 with
        | (b, s2, l2) => (b, s2, l1 ++ l2)
        end
    end.

Notation "x <- c1 ;; c2" := (bind c1 (fun x => c2))
  (at level 61, c1 at next level, right associativity).
Notation "c1 ;; c2" := (bind c1 (fun _ => c2))
  (at level 61, right associativity).

Definition get_ctx : M audio_manager_ctx_t := fun s => (s_ctx s, s, []).

Definition modify_ctx (f : audio_manager_ctx_t -> audio_manager_ctx_t) : M unit :=
  fun s => (tt, {| s_ctx := f (s_ctx s); world := world s |}, []).

(** Calling a collaborator function that returns a value, or none. *)
Definition extern {A : Type} (f : W -> A * W) (entry : A -> call) : M A :=
  fun s =>
    match f (world s) with
    | (a, w) => (a, {| s_ctx := s_ctx s; world := w |}, [entry a])
    end.

Definition extern_void (f : W -> W) (entry : call) : M unit :=
  fun s => (tt, {| s_ctx := s_ctx s; world := f (world s) |}, [entry]).

(** Projections of the outcome of a run. *)
Definition result_of {A : Type} (o : A * state * list call) : A := fst (fst o).
Definition state_of {A : Type} (o : A * state * list call) : state := snd (fst o).
Definition calls_of {A : Type} (o : A * state * list call) : list call := snd o.

Definition when (b : bool) (m : M unit) : M unit := if b then m else ret tt.

(** ** Internal callbacks of audio_manager.c *)

(** [audio_mgr_event_t mgr_event = {0};] *)
Definition mgr_event_zero : audio_mgr_event_t :=
  {| ev_type := 0; ev_wakeup := {| wake_word_index := 0; volume_db := 0 |} |}.

Definition with_type (t : Z) (e : audio_mgr_event_t) : audio_mgr_event_t :=
  {| ev_type := t; ev_wakeup := ev_wakeup e |}.

Definition with_wake_word_index (i : Z) (e : audio_mgr_event_t) : audio_mgr_event_t :=
  {| ev_type := ev_type e;
     ev_wakeup := {| wake_word_index := i; volume_db := volume_db (ev_wakeup e) |} |}.

Definition with_volume_db (v : Z) (e : audio_mgr_event_t) : audio_mgr_event_t :=
  {| ev_type := ev_type e;
     ev_wakeup := {| wake_word_index := wake_word_index (ev_wakeup e); volume_db := v |} |}.

(** Calling the application's event callback [s_ctx.config.event_callback]. *)
Definition notify (c : audio_manager_ctx_t) (ev : audio_mgr_event_t) : M unit :=
  extern_void
    (app_event_callback (event_callback (config c)) ev (user_ctx (config c)))
    (Call_event_callback (event_callback (config c)) ev (user_ctx (config c))).

(** [static void button_event_handler(button_event_type_t event, void *user_ctx)] *)
Definition button_event_handler (event : Z) (uc : ptr) : M unit :=
  c <- get_ctx ;;
  if is_null (event_callback (config c)) then ret tt else
  let mgr_event := mgr_event_zero in
  let mgr_event :=
    if event =? BUTTON_EVENT_PRESS then
      with_type AUDIO_MGR_EVENT_BUTTON_TRIGGER mgr_event
    else if event =? BUTTON_EVENT_RELEASE then
      with_type AUDIO_MGR_EVENT_BUTTON_RELEASE mgr_event
    else mgr_event in
  notify c mgr_event.

(** [static void afe_event_handler(const afe_event_t *event, void *user_ctx)];
    the [switch] has three cases and no default. *)
Definition afe_event_handler (event : afe_event_t) (uc : ptr) : M unit :=
  c <- get_ctx ;;
  if is_null (event_callback (config c)) then ret tt else
  let mgr_event := mgr_event_zero in
  let mgr_event :=
    if afe_type event =? AFE_EVENT_WAKEUP_DETECTED then
      with_volume_db (volume_db (afe_wakeup event))
        (with_wake_word_index (wake_word_index (afe_wakeup event))
           (with_type AUDIO_MGR_EVENT_WAKEUP_DETECTED mgr_event))
    else if afe_type event =? AFE_EVENT_VAD_START then
      with_type AUDIO_MGR_EVENT_VAD_START mgr_event
    else if afe_type event =? AFE_EVENT_VAD_END then
      with_type AUDIO_MGR_EVENT_VAD_END mgr_event
    else mgr_event in
  notify c mgr_event.

(** [static void afe_record_handler(const int16_t *pcm_data, size_t samples, void *user_ctx)] *)
Definition afe_record_handler (pcm_data : pcm_ptr) (samples : Z) (uc : ptr) : M unit :=
  c <- get_ctx ;;
  if negb (is_null (record_callback c)) then
    extern_void
      (app_record_callback (record_callback c) pcm_data samples (record_ctx c))
      (Call_record_callback (record_callback c) pcm_data samples (record_ctx c))
  else ret tt.

(** ** Public API: initialisation *)

(** The configurations that [audio_manager_init] builds from [config]. *)
Definition mic_cfg_of (config : audio_mgr_config_t) : i2s_mic_config_t :=
  {| i2s_mic_port := mic_port (mic (hw_config config));
     i2s_mic_bclk_gpio := mic_bclk_gpio (mic (hw_config config));
     i2s_mic_lrck_gpio := mic_lrck_gpio (mic (hw_config config));
     i2s_mic_din_gpio := mic_din_gpio (mic (hw_config config));
     i2s_mic_sample_rate := mic_sample_rate (mic (hw_config config));
     i2s_mic_bits := mic_bits (mic (hw_config config));
     i2s_mic_max_frame_samples := 512;
     i2s_mic_bit_shift := 14 |}.

Definition speaker_cfg_of (config : audio_mgr_config_t) : i2s_speaker_config_t :=
  {| i2s_spk_port := speaker_port (speaker (hw_config config));
     i2s_spk_bclk_gpio := speaker_bclk_gpio (speaker (hw_config config));
     i2s_spk_lrck_gpio := speaker_lrck_gpio (speaker (hw_config config));
     i2s_spk_dout_gpio := speaker_dout_gpio (speaker (hw_config config));
     i2s_spk_sample_rate := speaker_sample_rate (speaker (hw_config config));
     i2s_spk_bits := speaker_bits (speaker (hw_config config));
     i2s_spk_max_frame_samples := PLAYBACK_FRAME_SAMPLES |}.

Definition playback_cfg_of (c : audio_manager_ctx_t) : playback_controller_config_t :=
  {| pb_i2s_hal := i2s_hal c;
     pb_playback_buffer_samples := PLAYBACK_BUFFER_SIZE / sizeof_int16_t;
     pb_reference_buffer_samples := REFERENCE_BUFFER_SIZE / sizeof_int16_t;
     pb_frame_samples := PLAYBACK_FRAME_SAMPLES;
     pb_reference_callback := Fn_NULL;
     pb_reference_ctx := NULL;
     pb_volume_ptr := Ref_volume |}.

Definition afe_wakeup_of (w : audio_mgr_wakeup_config_t) : afe_wakeup_config_t :=
  {| afe_wakeup_enabled := wakeup_enabled w;
     afe_wake_word_name := wake_word_name w;
     afe_model_partition := model_partition w;
     afe_sensitivity := sensitivity w |}.

Definition afe_cfg_of (config : audio_mgr_config_t) (c : audio_manager_ctx_t)
  : afe_wrapper_config_t :=
  {| afe_i2s_hal := i2s_hal c;
     afe_reference_rb := reference_rb c;
     afe_cfg_wakeup := afe_wakeup_of (wakeup_config config);
     afe_cfg_vad :=
       {| afe_vad_enabled := vad_enabled (vad_config config);
          afe_vad_mode := vad_mode (vad_config config);
          afe_min_speech_ms := min_speech_ms (vad_config config);
          afe_min_silence_ms := min_silence_ms (vad_config config) |};
     afe_cfg_feature :=
       {| afe_aec_enabled := aec_enabled (afe_config config);
          afe_ns_enabled := ns_enabled (afe_config config);
          afe_agc_enabled := agc_enabled (afe_config config);
          afe_feature_mode := afe_mode (afe_config config) |};
     afe_event_callback := Fn_afe_event_handler;
     afe_event_ctx := NULL;
     afe_record_callback := Fn_afe_record_handler;
     afe_record_ctx := NULL;
     afe_running_ptr := Ref_running;
     afe_recording_ptr := Ref_recording |}.

Definition button_cfg_of (config : audio_mgr_config_t) : button_handler_config_t :=
  {| btn_gpio := button_gpio (button (hw_config config));
     btn_active_low := button_active_low (button (hw_config config));
     btn_debounce_ms := 50;
     btn_callback := Fn_button_event_handler;
     btn_user_ctx := NULL |}.

(** Step 5 of [audio_manager_init]: the button handler, then the flag. *)
Definition init_button_handler (config : audio_mgr_config_t) : M esp_err_t :=
  h <- extern (button_handler_create (button_cfg_of config))
         (Call_button_handler_create (button_cfg_of config)) ;;
  modify_ctx (set_button_handler h) ;;
  c <- get_ctx ;;
  if is_null (button_handler c) then
    extern_void (afe_wrapper_destroy (afe_wrapper c))
      (Call_afe_wrapper_destroy (afe_wrapper c)) ;;
    extern_void (playback_controller_destroy (playback_ctrl c))
      (Call_playback_controller_destroy (playback_ctrl c)) ;;
    extern_void (i2s_hal_destroy (i2s_hal c)) (Call_i2s_hal_destroy (i2s_hal c)) ;;
    ret ESP_ERR_NO_MEM
  else
    modify_ctx (set_initialized true) ;;
    ret ESP_OK.

(** Step 4: the AFE wrapper. *)
Definition init_afe_wrapper (config : audio_mgr_config_t) : M esp_err_t :=
  c <- get_ctx ;;
  h <- extern (afe_wrapper_create (afe_cfg_of config c))
         (Call_afe_wrapper_create (afe_cfg_of config c)) ;;
  modify_ctx (set_afe_wrapper h) ;;
  c <- get_ctx ;;
  if is_null (afe_wrapper c) then
    extern_void (playback_controller_destroy (playback_ctrl c))
      (Call_playback_controller_destroy (playback_ctrl c)) ;;
    extern_void (i2s_hal_destroy (i2s_hal c)) (Call_i2s_hal_destroy (i2s_hal c)) ;;
    ret ESP_ERR_NO_MEM
  else init_button_handler config.

(** Step 3: the playback controller, whose own reference buffer then
    replaces the one of step 2 in [s_ctx.reference_rb]. *)
Definition init_playback_ctrl (config : audio_mgr_config_t) : M esp_err_t :=
  c <- get_ctx ;;
  h <- extern (playback_controller_create (playback_cfg_of c))
         (Call_playback_controller_create (playback_cfg_of c)) ;;
  modify_ctx (set_playback_ctrl h) ;;
  c <- get_ctx ;;
  if is_null (playback_ctrl c) then
    extern_void (ring_buffer_destroy (reference_rb c))
      (Call_ring_buffer_destroy (reference_rb c)) ;;
    extern_void (i2s_hal_destroy (i2s_hal c)) (Call_i2s_hal_destroy (i2s_hal c)) ;;
    ret ESP_ERR_NO_MEM
  else
    rb <- extern (playback_controller_get_reference_buffer (playback_ctrl c))
            (Call_playback_controller_get_reference_buffer (playback_ctrl c)) ;;
    modify_ctx (set_reference_rb rb) ;;
    init_afe_wrapper config.

(** Step 2: the reference ring buffer. *)
Definition init_reference_rb (config : audio_mgr_config_t) : M esp_err_t :=
  rb <- extern (ring_buffer_create (REFERENCE_BUFFER_SIZE / sizeof_int16_t) false)
          (Call_ring_buffer_create (REFERENCE_BUFFER_SIZE / sizeof_int16_t) false) ;;
  modify_ctx (set_reference_rb rb) ;;
  c <- get_ctx ;;
  if is_null (reference_rb c) then
    extern_void (i2s_hal_destroy (i2s_hal c)) (Call_i2s_hal_destroy (i2s_hal c)) ;;
    ret ESP_ERR_NO_MEM
  else init_playback_ctrl config.

(** Step 1: the I2S HAL. *)
Definition init_i2s_hal (config : audio_mgr_config_t) : M esp_err_t :=
  h <- extern (i2s_hal_create (mic_cfg_of config) (speaker_cfg_of config))
         (Call_i2s_hal_create (mic_cfg_of config) (speaker_cfg_of config)) ;;
  modify_ctx (set_i2s_hal h) ;;
  c <- get_ctx ;;
  if is_null (i2s_hal c) then ret ESP_ERR_NO_MEM
  else init_reference_rb config.

(** [esp_err_t audio_manager_init(const audio_mgr_config_t *config)]:
    the already-initialised test, the argument test, the copy of the
    configuration and the default volume, then the five creation steps,
    each with its own unwinding. *)
Definition audio_manager_init (config : option audio_mgr_config_t) : M esp_err_t :=
  c <- get_ctx ;;
  if initialized c then ret ESP_OK else
  match config with
  | None => ret ESP_ERR_INVALID_ARG
  | Some cfg =>
      if is_null (event_callback cfg) then ret ESP_ERR_INVALID_ARG else
      modify_ctx (set_config cfg) ;;
      modify_ctx (set_volume 80) ;;
      init_i2s_hal cfg
  end.

(** ** Public API: control plane *)

(** [esp_err_t audio_manager_start(void)] *)
Definition audio_manager_start : M esp_err_t :=
  c <- get_ctx ;;
  if negb (initialized c) then ret ESP_ERR_INVALID_STATE else
  if running c then ret ESP_OK else
  modify_ctx (set_running true) ;;
  ret ESP_OK.

(** [esp_err_t audio_manager_stop(void)] *)
Definition audio_manager_stop : M esp_err_t :=
  c <- get_ctx ;;
  if negb (running c) then ret ESP_OK else
  modify_ctx (set_running false) ;;
  modify_ctx (set_recording false) ;;
  ret ESP_OK.

(** [esp_err_t audio_manager_trigger_conversation(void)] *)
Definition audio_manager_trigger_conversation : M esp_err_t :=
  c <- get_ctx ;;
  if negb (initialized c) then ret ESP_ERR_INVALID_STATE else
  let event := with_type AUDIO_MGR_EVENT_BUTTON_TRIGGER mgr_event_zero in
  when (negb (is_null (event_callback (config c)))) (notify c event) ;;
  ret ESP_OK.

(** [esp_err_t audio_manager_start_recording(void)] *)
Definition audio_manager_start_recording : M esp_err_t :=
  c <- get_ctx ;;
  if negb (initialized c) then ret ESP_ERR_INVALID_STATE else
  modify_ctx (set_recording true) ;;
  ret ESP_OK.

(** [esp_err_t audio_manager_stop_recording(void)] *)
Definition audio_manager_stop_recording : M esp_err_t :=
  c <- get_ctx ;;
  if negb (recording c) then ret ESP_OK else
  modify_ctx (set_recording false) ;;
  ret ESP_OK.

(** [esp_err_t audio_manager_play_audio(const int16_t *pcm_data, size_t sample_count)] *)
Definition audio_manager_play_audio (pcm_data : pcm_ptr) (sample_count : Z)
  : M esp_err_t :=
  c <- get_ctx ;;
  if negb (initialized c)
     || match pcm_data with None => true | Some _ => false end
     || (sample_count =? 0)
  then ret ESP_ERR_INVALID_ARG
  else
    extern (playback_controller_write (playback_ctrl c) pcm_data sample_count)
      (Call_playback_controller_write (playback_ctrl c) pcm_data sample_count).

(** [size_t audio_manager_get_playback_free_space(void)] *)
Definition audio_manager_get_playback_free_space : M Z :=
  c <- get_ctx ;;
  if negb (initialized c) || is_null (playback_ctrl c) then ret 0 else
  extern (playback_controller_get_free_space (playback_ctrl c))
    (Call_playback_controller_get_free_space (playback_ctrl c)).

(** [esp_err_t audio_manager_start_playback(void)] *)
Definition audio_manager_start_playback : M esp_err_t :=
  c <- get_ctx ;;
  if negb (initialized c) then ret ESP_ERR_INVALID_STATE else
  extern (playback_controller_start (playback_ctrl c))
    (Call_playback_controller_start (playback_ctrl c)).

(** [esp_err_t audio_manager_stop_playback(void)] *)
Definition audio_manager_stop_playback : M esp_err_t :=
  c <- get_ctx ;;
  if negb (initialized c) then ret ESP_OK else
  extern (playback_controller_stop (playback_ctrl c))
    (Call_playback_controller_stop (playback_ctrl c)).

(** [esp_err_t audio_manager_clear_playback_buffer(void)] *)
Definition audio_manager_clear_playback_buffer : M esp_err_t :=
  c <- get_ctx ;;
  if negb (initialized c) then ret ESP_ERR_INVALID_STATE else
  extern (playback_controller_clear (playback_ctrl c))
    (Call_playback_controller_clear (playback_ctrl c)).

(** [void audio_manager_set_volume(uint8_t volume)]: the argument is
    converted to [uint8_t] at the call, then clamped. *)
Definition audio_manager_set_volume (volume : Z) : M unit :=
  let volume := volume mod 2 ^ 8 in
  let volume := if 100 <? volume then 100 else volume in
  modify_ctx (set_volume volume).

(** [uint8_t audio_manager_get_volume(void)] *)
Definition audio_manager_get_volume : M Z :=
  c <- get_ctx ;;
  ret (volume c).

(** [esp_err_t audio_manager_update_wakeup_config(const audio_mgr_wakeup_config_t *config)] *)
Definition audio_manager_update_wakeup_config
  (new_config : option audio_mgr_wakeup_config_t) : M esp_err_t :=
  c <- get_ctx ;;
  if negb (initialized c) then ret ESP_ERR_INVALID_ARG else
  match new_config with
  | None => ret ESP_ERR_INVALID_ARG
  | Some cfg =>
      modify_ctx (fun c => set_config (set_wakeup_config cfg (config c)) c) ;;
      let afe_wakeup := afe_wakeup_of cfg in
      c <- get_ctx ;;
      extern (afe_wrapper_update_wakeup_config (afe_wrapper c) afe_wakeup)
        (Call_afe_wrapper_update_wakeup_config (afe_wrapper c) afe_wakeup)
  end.

(** [esp_err_t audio_manager_get_wakeup_config(audio_mgr_wakeup_config_t *config)]:
    the argument is the caller's buffer ([None] for a null pointer); the
    buffer as the call leaves it is returned with the error code. *)
Definition audio_manager_get_wakeup_config
  (out_config : option audio_mgr_wakeup_config_t)
  : M (esp_err_t * option audio_mgr_wakeup_config_t) :=
  c <- get_ctx ;;
  if negb (initialized c) then ret (ESP_ERR_INVALID_ARG, out_config) else
  match out_config with
  | None => ret (ESP_ERR_INVALID_ARG, None)
  | Some _ => ret (ESP_OK, Some (wakeup_config (config c)))
  end.

(** [bool audio_manager_is_running(void)] *)
Definition audio_manager_is_running : M bool :=
  c <- get_ctx ;;
  ret (running c).

(** [bool audio_manager_is_recording(void)] *)
Definition audio_manager_is_recording : M bool :=
  c <- get_ctx ;;
  ret (recording c).

(** [bool audio_manager_is_playing(void)] *)
Definition audio_manager_is_playing : M bool :=
  c <- get_ctx ;;
  extern (playback_controller_is_running (playback_ctrl c))
    (Call_playback_controller_is_running (playback_ctrl c)).

(** [void audio_manager_set_record_callback(audio_record_callback_t callback, void *user_ctx)] *)
Definition audio_manager_set_record_callback (callback uc : ptr) : M unit :=
  modify_ctx (set_record_callback callback uc).

(** ** Public API: teardown *)

(** [void audio_manager_deinit(void)] *)
Definition audio_manager_deinit : M unit :=
  c <- get_ctx ;;
  if negb (initialized c) then ret tt else
  audio_manager_stop ;;
  audio_manager_stop_playback ;;
  c <- get_ctx ;;
  when (negb (is_null (button_handler c)))
    (extern_void (button_handler_destroy (button_handler c))
       (Call_button_handler_destroy (button_handler c)) ;;
     modify_ctx (set_button_handler NULL)) ;;
  c <- get_ctx ;;
  when (negb (is_null (afe_wrapper c)))
    (extern_void (afe_wrapper_destroy (afe_wrapper c))
       (Call_afe_wrapper_destroy (afe_wrapper c)) ;;
     modify_ctx (set_afe_wrapper NULL)) ;;
  c <- get_ctx ;;
  when (negb (is_null (playback_ctrl c)))
    (extern_void (playback_controller_destroy (playback_ctrl c))
       (Call_playback_controller_destroy (playback_ctrl c)) ;;
     modify_ctx (set_playback_ctrl NULL)) ;;
  c <- get_ctx ;;
  when (negb (is_null (i2s_hal c)))
    (extern_void (i2s_hal_destroy (i2s_hal c)) (Call_i2s_hal_destroy (i2s_hal c)) ;;
     modify_ctx (set_i2s_hal NULL)) ;;
  modify_ctx (fun _ => s_ctx_zero).

(** ** The states the program can be in *)

(** One entry into the orchestrator: a public API call with its arguments,
    or one of the three internal callbacks being invoked by a collaborator. *)
Inductive operation :=
| Op_init (config : option audio_mgr_config_t)
| Op_deinit
| Op_start
| Op_stop
| Op_trigger_conversation
| Op_start_recording
| Op_stop_recording
| Op_play_audio (pcm_data : pcm_ptr) (sample_count : Z)
| Op_get_playback_free_space
| Op_start_playback
| Op_stop_playback
| Op_clear_playback_buffer
| Op_set_volume (volume : Z)
| Op_get_volume
| Op_update_wakeup_config (new_config : option audio_mgr_wakeup_config_t)
| Op_get_wakeup_config (out_config : option audio_mgr_wakeup_config_t)
| Op_is_running
| Op_is_recording
| Op_is_playing
| Op_set_record_callback (callback uc : ptr)
| Op_button_event (event : Z)
| Op_afe_event (event : afe_event_t)
| Op_afe_record (pcm_data : pcm_ptr) (samples : Z).

Definition discard {A : Type} (m : M A) : M unit := m ;; ret tt.

Definition exec (o : operation) : M unit :=
  match o with
  | Op_init config => discard (audio_manager_init config)
  | Op_deinit => audio_manager_deinit
  | Op_start => discard audio_manager_start
  | Op_stop => discard audio_manager_stop
  | Op_trigger_conversation => discard audio_manager_trigger_conversation
  | Op_start_recording => discard audio_manager_start_recording
  | Op_stop_recording => discard audio_manager_stop_recording
  | Op_play_audio p n => discard (audio_manager_play_audio p n)
  | Op_get_playback_free_space => discard audio_manager_get_playback_free_space
  | Op_start_playback => discard audio_manager_start_playback
  | Op_stop_playback => discard audio_manager_stop_playback
  | Op_clear_playback_buffer => discard audio_manager_clear_playback_buffer
  | Op_set_volume v => audio_manager_set_volume v
  | Op_get_volume => discard audio_manager_get_volume
  | Op_update_wakeup_config c => discard (audio_manager_update_wakeup_config c)
  | Op_get_wakeup_config c => discard (audio_manager_get_wakeup_config c)
  | Op_is_running => discard audio_manager_is_running
  | Op_is_recording => discard audio_manager_is_recording
  | Op_is_playing => discard audio_manager_is_playing
  | Op_set_record_callback cb uc => audio_manager_set_record_callback cb uc
  | Op_button_event e => button_event_handler e NULL
  | Op_afe_event e => afe_event_handler e NULL
  | Op_afe_record p n => afe_record_handler p n NULL
  end.

(** Running a sequence of operations from a state. *)
Fixpoint exec_all (ops : list operation) (s : state) : state :=
  match ops with
  | [] => s
  | o :: ops' => exec_all ops' (state_of (exec o s))
  end.

(** The program starts with [s_ctx = {0}]; from there the context only
    changes through the operations, while the collaborators' state may also
    change on its own (their tasks run concurrently). *)
Inductive reachable : state -> Prop :=
| reachable_boot (w : W) : reachable {| s_ctx := s_ctx_zero; world := w |}
| reachable_step (o : operation) (s : state) :
    reachable s -> reachable (state_of (exec o s))
| reachable_world (s : state) (w : W) :
    reachable s -> reachable {| s_ctx := s_ctx s; world := w |}.

(** The invariant behind teardown: an initialised context holds four live
    handles. *)
Definition handles_live (c : audio_manager_ctx_t) : Prop :=
  initialized c = true ->
  is_null (i2s_hal c) = false /\ is_null (playback_ctrl c) = false /\
  is_null (afe_wrapper c) = false /\ is_null (button_handler c) = false.

(** The guard of [audio_manager_play_audio]. *)
Definition play_audio_rejects (c : audio_manager_ctx_t) (pcm_data : pcm_ptr)
  (sample_count : Z) : bool :=
  negb (initialized c)
  || match pcm_data with None => true | Some _ => false end
  || (sample_count =? 0).

End Orchestrator.

Arguments state W : clear implicits.
Arguments M W A : clear implicits.

(** ** The application's configuration builder (main/audio_config_app.c)

    [void audio_config_app_build(audio_mgr_config_t *cfg, audio_mgr_event_cb_t event_cb, void *user_ctx)].
    The macro AUDIO_MANAGER_DEFAULT_CONFIG is not among the sources; every
    field of the record is assigned after the macro, so its values do not
    show.  [None] is a null [cfg]; the result is the record [cfg] points to
    afterwards. *)
Definition audio_config_app_build (cfg : option audio_mgr_config_t)
  (event_cb uc : ptr) : option audio_mgr_config_t :=
  match cfg with
  | None => None
  | Some _ =>
      Some
        {| hw_config :=
             {| mic := {| mic_port := 1; mic_bclk_gpio := 15; mic_lrck_gpio := 2;
                          mic_din_gpio := 39; mic_sample_rate := 16000;
                          mic_bits := 32 |};
                speaker := {| speaker_port := 0; speaker_bclk_gpio := 48;
                              speaker_lrck_gpio := 38; speaker_dout_gpio := 47;
                              speaker_sample_rate := 16000; speaker_bits := 16 |};
                button := {| button_gpio := 0; button_active_low := true |} |};
           wakeup_config :=
             {| wakeup_enabled := false; wake_word_name := "小鸭小鸭";
                model_partition := "model"; sensitivity := 2;
                wakeup_timeout_ms := 8000; wakeup_end_delay_ms := 1200 |};
           vad_config :=
             {| vad_enabled := true; vad_mode := 2; min_speech_ms := 200;
                min_silence_ms := 400 |};
           afe_config :=
             {| aec_enabled := true; ns_enabled := true; agc_enabled := true;
                afe_mode := 1 |};
           event_callback := event_cb;
           user_ctx := uc |}
  end.

(** ** A test bench for the collaborators

    A concrete implementation of the interface, used to run the orchestrator
    on explicit inputs.  A creation hands out the next free address while
    the bench's allocation budget lasts and returns [NULL] afterwards, so a
    budget of [k-1] makes the [k]-th creation of [audio_manager_init] fail.
    The playback write answers ESP_ERR_INVALID_ARG to a null handle, a
    null sample pointer or a zero count, and otherwise with a field of the
    bench; the result of the AFE wake-word update is a field too. *)
Record bench := {
  next_handle : N;
  budget : nat;
  write_result : esp_err_t;
  update_result : esp_err_t;
  playing : bool
}.

Definition bench_create (w : bench) : ptr * bench :=
  match budget w with
  | O => (NULL, w)
  | S b =>
      (next_handle w,
       {| next_handle := N.succ (next_handle w); budget := b;
          write_result := write_result w; update_result := update_result w;
          playing := playing w |})
  end.

Definition bench_set_playing (b : bool) (w : bench) : bench :=
  {| next_handle := next_handle w; budget := budget w;
     write_result := write_result w; update_result := update_result w;
     playing := b |}.

#[export] Instance bench_collaborators : Collaborators bench := {|
  i2s_hal_create := fun _ _ => bench_create;
  i2s_hal_destroy := fun _ w => w;
  ring_buffer_create := fun _ _ => bench_create;
  ring_buffer_destroy := fun _ w => w;
  playback_controller_create := fun _ => bench_create;
  playback_controller_destroy := fun _ w => w;
  playback_controller_get_reference_buffer := fun h w => ((h + 256)%N, w);
  playback_controller_write := fun h p n w =>
    (if is_null h
        || match p with None => true | Some _ => false end
        || (n =? 0)
     then ESP_ERR_INVALID_ARG
     else write_result w, w);
  playback_controller_get_free_space := fun _ w => (4096, w);
  playback_controller_start := fun _ w => (ESP_OK, bench_set_playing true w);
  playback_controller_stop := fun _ w => (ESP_OK, bench_set_playing false w);
  playback_controller_clear := fun _ w => (ESP_OK, w);
  playback_controller_is_running := fun _ w => (playing w, w);
  afe_wrapper_create := fun _ => bench_create;
  afe_wrapper_destroy := fun _ w => w;
  afe_wrapper_update_wakeup_config := fun _ _ w => (update_result w, w);
  button_handler_create := fun _ => bench_create;
  button_handler_destroy := fun _ w => w;
  app_event_callback := fun _ _ _ w => w;
  app_record_callback := fun _ _ _ _ w => w
|}.

(** Enumerator values for the bench (any ten integers would do). *)
#[export] Instance bench_enumerators : Enumerators := {|
  AUDIO_MGR_EVENT_BUTTON_TRIGGER := 0;
  AUDIO_MGR_EVENT_BUTTON_RELEASE := 1;
  AUDIO_MGR_EVENT_WAKEUP_DETECTED := 2;
  AUDIO_MGR_EVENT_VAD_START := 3;
  AUDIO_MGR_EVENT_VAD_END := 4;
  AFE_EVENT_WAKEUP_DETECTED := 0;
  AFE_EVENT_VAD_START := 1;
  AFE_EVENT_VAD_END := 2;
  BUTTON_EVENT_PRESS := 0;
  BUTTON_EVENT_RELEASE := 1
|}.

(** The bench at boot: [s_ctx = {0}], handles from address 1, [b] creations
    allowed. *)
Definition bench_boot (b : nat) : state bench :=
  {| s_ctx := s_ctx_zero;
     world := {| next_handle := 1; budget := b; write_result := ESP_OK;
                 update_result := ESP_OK; playing := false |} |}.

(** The application's configuration, with its event callback at address
    4096 and no user context. *)
Definition bench_config : option audio_mgr_config_t :=
  Eval vm_compute in audio_config_app_build (Some audio_mgr_config_zero) 4096%N NULL.

(** The record that [bench_config] points to. *)
Definition bench_cfg : audio_mgr_config_t :=
  Eval vm_compute in
  match bench_config with
  | Some cfg => cfg
  | None => audio_mgr_config_zero
  end.

(** The bench after a successful [audio_manager_init]. *)
Definition bench_ready : state bench :=
  Eval vm_compute in exec_all [Op_init bench_config] (bench_boot 5).

(** The same, with recording switched on while not listening. *)
Definition bench_recording_only : state bench :=
  Eval vm_compute in
  exec_all [Op_init bench_config; Op_start_recording] (bench_boot 5).

(** The bench after an [audio_manager_init] whose fourth creation (the AFE
    wrapper) failed. *)
Definition bench_afe_failed : state bench :=
  Eval vm_compute in exec_all [Op_init bench_config] (bench_boot 3).

(** An initialised bench whose wake-word update answers [ESP_ERR_NO_MEM]. *)
Definition bench_refusing : state bench :=
  Eval vm_compute in
  {| s_ctx := s_ctx bench_ready;
     world := {| next_handle := next_handle (world bench_ready);
                 budget := budget (world bench_ready);
                 write_result := ESP_OK;
                 update_result := ESP_ERR_NO_MEM;
                 playing := false |} |}.

(** A wake-word detection: word 2 at -12 dB. *)
Definition bench_wakeup_event : afe_event_t :=
  {| afe_type := AFE_EVENT_WAKEUP_DETECTED;
     afe_wakeup := {| wake_word_index := 2; volume_db := -12 |} |}.

(** A new wake-word configuration. *)
Definition bench_wakeup_config : audio_mgr_wakeup_config_t :=
  {| wakeup_enabled := true; wake_word_name := "hi esp";
     model_partition := "model"; sensitivity := 3;
     wakeup_timeout_ms := 5000; wakeup_end_delay_ms := 800 |}.

(** ** Further notions used in the properties *)

(** What every state the program can be in satisfies besides
    [handles_live]: the listening and recording flags are only set on an
    initialised context, an initialised context has an event callback, and
    the volume is a percentage. *)
Definition flags_guarded (c : audio_manager_ctx_t) : Prop :=
  initialized c = false -> running c = false /\ recording c = false.

Definition callback_registered (c : audio_manager_ctx_t) : Prop :=
  initialized c = true -> is_null (event_callback (config c)) = false.

Definition volume_in_range (c : audio_manager_ctx_t) : Prop :=
  0 <= volume c <= 100.

Definition ctx_inv (c : audio_manager_ctx_t) : Prop :=
  flags_guarded c /\ callback_registered c /\ volume_in_range c.


(** The two operations that create and destroy the modules. *)
Definition is_lifecycle (o : operation) : bool :=
  match o with
  | Op_init _ | Op_deinit => true
  | _ => false
  end.

(** The operations that act on an initialised orchestrator only: the
    control calls, the queries that read a flag or the configuration, and
    teardown.  Left out are init itself, set_volume and
    set_record_callback (which write the context in any state), is_playing
    (which calls the playback controller in any state) and the three
    callbacks driven by the collaborators. *)
Definition acts_when_initialized (o : operation) : bool :=
  match o with
  | Op_deinit | Op_start | Op_stop | Op_trigger_conversation
  | Op_start_recording | Op_stop_recording | Op_play_audio _ _
  | Op_get_playback_free_space | Op_start_playback | Op_stop_playback
  | Op_clear_playback_buffer | Op_get_volume | Op_update_wakeup_config _
  | Op_get_wakeup_config _ | Op_is_running | Op_is_recording => true
  | _ => false
  end.

(** The fields of the context that hold the wiring: the flag, the four
    handles, the reference buffer and the application's event sink. *)
Definition same_wiring (c c' : audio_manager_ctx_t) : Prop :=
  initialized c' = initialized c /\
  i2s_hal c' = i2s_hal c /\
  playback_ctrl c' = playback_ctrl c /\
  afe_wrapper c' = afe_wrapper c /\
  button_handler c' = button_handler c /\
  reference_rb c' = reference_rb c /\
  hw_config (config c') = hw_config (config c) /\
  event_callback (config c') = event_callback (config c) /\
  user_ctx (config c') = user_ctx (config c).

(** A voice-activity start, carrying a payload that must not be relayed. *)
Definition bench_vad_start_event : afe_event_t :=
  {| afe_type := AFE_EVENT_VAD_START;
     afe_wakeup := {| wake_word_index := 7; volume_db := -3 |} |}.

(** The initialised bench while listening and recording. *)
Definition bench_listening : state bench :=
  Eval vm_compute in
  exec_all [Op_init bench_config; Op_start; Op_start_recording] (bench_boot 5).

(** * Properties of the orchestrator *)

Section Properties.

Context {W : Type} {E : Enumerators} {C : Collaborators W}.

Implicit Types (s : state W) (c : audio_manager_ctx_t).

(** Unfolding the monad down to pairs. *)
Ltac run_monad :=
  cbv [bind ret get_ctx modify_ctx extern extern_void when discard notify
       result_of state_of calls_of];
  cbn [s_ctx world fst snd app].

(** ** Initialisation: fast path and argument validation *)

(** On an initialised context [audio_manager_init] returns before it looks
    at its argument. *)
Lemma init_when_initialized s (config : option audio_mgr_config_t) :
  initialized (s_ctx s) = true ->
  audio_manager_init config s = (ESP_OK, s, []).
Proof.
  intros Hinit. unfold audio_manager_init. run_monad.
  rewrite Hinit. reflexivity.
Qed.

(** On an uninitialised context a null [config] or a null callback is
    rejected before anything is written. *)
Lemma init_rejects_null_config s :
  initialized (s_ctx s) = false ->
  audio_manager_init None s = (ESP_ERR_INVALID_ARG, s, []).
Proof.
  intros Hinit. unfold audio_manager_init. run_monad.
  rewrite Hinit. reflexivity.
Qed.

Lemma init_rejects_null_callback s (cfg : audio_mgr_config_t) :
  initialized (s_ctx s) = false ->
  is_null (event_callback cfg) = true ->
  audio_manager_init (Some cfg) s = (ESP_ERR_INVALID_ARG, s, []).
Proof.
  intros Hinit Hcb. unfold audio_manager_init. run_monad.
  rewrite Hinit, Hcb. reflexivity.
Qed.

(** C8: on an initialised context [audio_manager_init] returns ESP_OK even
    for a null [config] or a [config] with a null event callback, because
    the already-initialised test comes before the argument test; so it never
    returns ESP_ERR_INVALID_ARG there, whatever the argument. *)
Theorem init_fast_path_precedes_validation s :
  initialized (s_ctx s) = true ->
  audio_manager_init None s = (ESP_OK, s, []) /\
  (forall cfg, is_null (event_callback cfg) = true ->
               audio_manager_init (Some cfg) s = (ESP_OK, s, [])) /\
  (forall config, result_of (audio_manager_init config s) <> ESP_ERR_INVALID_ARG).
Proof.
  intros Hinit. repeat split.
  - now apply init_when_initialized.
  - intros cfg _. now apply init_when_initialized.
  - intros config. rewrite (init_when_initialized s config Hinit).
    unfold result_of; cbn. discriminate.
Qed.

(** C4, amended: in the uninitialised state, [audio_manager_init] with a
    null [config] or with a [config] whose event callback is null returns
    ESP_ERR_INVALID_ARG, makes no call, changes nothing, and [initialized]
    is still false. *)
Theorem init_rejects_absent_arguments s (config : option audio_mgr_config_t) :
  initialized (s_ctx s) = false ->
  match config with
  | None => True
  | Some cfg => is_null (event_callback cfg) = true
  end ->
  audio_manager_init config s = (ESP_ERR_INVALID_ARG, s, []) /\
  initialized (s_ctx (state_of (audio_manager_init config s))) = false.
Proof.
  intros Hinit Harg.
  assert (Hrun : audio_manager_init config s = (ESP_ERR_INVALID_ARG, s, [])).
  { destruct config as [cfg|].
    - now apply init_rejects_null_callback.
    - now apply init_rejects_null_config. }
  split; [exact Hrun|]. rewrite Hrun. exact Hinit.
Qed.

(** ** Listening *)

(** C2, amended: [audio_manager_stop] always returns ESP_OK without calling
    a collaborator and leaves [running] false.  When [running] was true it
    also clears [recording]; when [running] was already false it changes
    nothing, so [recording] keeps its value.  A second stop changes nothing
    and returns ESP_OK. *)
Theorem stop_clears_flags_when_running s :
  audio_manager_stop s =
    (ESP_OK,
     (if running (s_ctx s)
      then {| s_ctx := set_recording false (set_running false (s_ctx s));
              world := world s |}
      else s),
     []) /\
  running (s_ctx (state_of (audio_manager_stop s))) = false /\
  recording (s_ctx (state_of (audio_manager_stop s))) =
    (if running (s_ctx s) then false else recording (s_ctx s)) /\
  audio_manager_stop (state_of (audio_manager_stop s)) =
    (ESP_OK, state_of (audio_manager_stop s), []).
Proof.
  unfold audio_manager_stop. run_monad.
  destruct (running (s_ctx s)) eqn:Hrun; cbn; run_monad; cbn.
  - repeat split; reflexivity.
  - rewrite Hrun; cbn. repeat split; reflexivity.
Qed.

(** ** Playback *)

(** What [audio_manager_play_audio] does, by its guard. *)
Lemma play_audio_run s (pcm_data : pcm_ptr) (sample_count : Z) :
  audio_manager_play_audio pcm_data sample_count s =
    if play_audio_rejects (s_ctx s) pcm_data sample_count
    then (ESP_ERR_INVALID_ARG, s, [])
    else
      let rw := playback_controller_write (playback_ctrl (s_ctx s)) pcm_data
                  sample_count (world s) in
      (fst rw, {| s_ctx := s_ctx s; world := snd rw |},
       [Call_playback_controller_write (playback_ctrl (s_ctx s)) pcm_data
          sample_count (fst rw)]).
Proof.
  unfold audio_manager_play_audio, play_audio_rejects. run_monad.
  destruct (negb (initialized (s_ctx s))
            || match pcm_data with None => true | Some _ => false end
            || (sample_count =? 0)); [reflexivity|].
  cbn. destruct (playback_controller_write _ _ _ _); reflexivity.
Qed.

(** Whatever the playback controller does: when the context is
    uninitialised, the sample pointer is null or the count is zero,
    [audio_manager_play_audio] returns ESP_ERR_INVALID_ARG, changes nothing
    and makes no call; otherwise it makes exactly one call, the playback
    controller's write with the stored handle and the caller's pointer and
    count, and returns that call's result unchanged. *)
Lemma play_audio_guard_then_forward s (pcm_data : pcm_ptr) (sample_count : Z) :
  let o := audio_manager_play_audio pcm_data sample_count s in
  let rw := playback_controller_write (playback_ctrl (s_ctx s)) pcm_data
              sample_count (world s) in
  (if play_audio_rejects (s_ctx s) pcm_data sample_count
   then o = (ESP_ERR_INVALID_ARG, s, []) /\
        existsb touches_playback_buffer (calls_of o) = false
   else result_of o = fst rw /\
        state_of o = {| s_ctx := s_ctx s; world := snd rw |} /\
        calls_of o =
          [Call_playback_controller_write (playback_ctrl (s_ctx s)) pcm_data
             sample_count (fst rw)]) /\
  (result_of o = ESP_ERR_INVALID_ARG <->
   play_audio_rejects (s_ctx s) pcm_data sample_count = true \/
   fst rw = ESP_ERR_INVALID_ARG).
Proof.
  cbv zeta. rewrite play_audio_run.
  destruct (play_audio_rejects (s_ctx s) pcm_data sample_count); cbn.
  - repeat split; auto.
  - repeat split; auto. intros [H|H]; [discriminate|exact H].
Qed.

(** ** Event relay *)

(** C6: for a wake-word detection event, [afe_event_handler] calls the
    application's event callback exactly once, with the discriminant
    AUDIO_MGR_EVENT_WAKEUP_DETECTED, the event's own [wake_word_index] and
    [volume_db], and the stored user context; with a null event callback it
    returns at once, making no call and changing nothing.  The context is
    never modified. *)
Theorem afe_wakeup_event_relayed s (event : afe_event_t) (uc : ptr) :
  afe_type event = AFE_EVENT_WAKEUP_DETECTED ->
  let o := afe_event_handler event uc s in
  let cb := event_callback (config (s_ctx s)) in
  let relayed :=
    {| ev_type := AUDIO_MGR_EVENT_WAKEUP_DETECTED;
       ev_wakeup := {| wake_word_index := wake_word_index (afe_wakeup event);
                       volume_db := volume_db (afe_wakeup event) |} |} in
  s_ctx (state_of o) = s_ctx s /\
  (is_null cb = true -> o = (tt, s, [])) /\
  (is_null cb = false ->
   calls_of o = [Call_event_callback cb relayed (user_ctx (config (s_ctx s)))] /\
   world (state_of o) =
     app_event_callback cb relayed (user_ctx (config (s_ctx s))) (world s)).
Proof.
  intros Hty. cbv zeta. unfold afe_event_handler. run_monad.
  rewrite Hty, Z.eqb_refl.
  destruct (is_null (event_callback (config (s_ctx s)))); cbn.
  - repeat split; auto; discriminate.
  - repeat split; auto; discriminate.
Qed.

(** ** Wake-word configuration *)

(** C10: on an initialised context and a non-null configuration,
    [audio_manager_update_wakeup_config] stores the new configuration, then
    makes one call, the AFE wrapper's update with the stored AFE handle and
    a record made of the new configuration's enable flag, wake-word name,
    model partition and sensitivity, and returns that call's result
    whatever it is; so also when that result is a failure the stored
    configuration is already the new one, and it is what
    [audio_manager_get_wakeup_config] then hands out.  Nothing else in the
    context changes. *)
Theorem update_wakeup_config_stores_before_push s
  (cfg : audio_mgr_wakeup_config_t) :
  initialized (s_ctx s) = true ->
  let o := audio_manager_update_wakeup_config (Some cfg) s in
  let pushed :=
    {| afe_wakeup_enabled := wakeup_enabled cfg;
       afe_wake_word_name := wake_word_name cfg;
       afe_model_partition := model_partition cfg;
       afe_sensitivity := sensitivity cfg |} in
  let rw := afe_wrapper_update_wakeup_config (afe_wrapper (s_ctx s))
              pushed (world s) in
  result_of o = fst rw /\
  calls_of o =
    [Call_afe_wrapper_update_wakeup_config (afe_wrapper (s_ctx s))
       pushed (fst rw)] /\
  state_of o =
    {| s_ctx := set_config (set_wakeup_config cfg (config (s_ctx s))) (s_ctx s);
       world := snd rw |} /\
  wakeup_config (config (s_ctx (state_of o))) = cfg /\
  initialized (s_ctx (state_of o)) = true /\
  (forall old, result_of (audio_manager_get_wakeup_config (Some old) (state_of o))
               = (ESP_OK, Some cfg)).
Proof.
  intros Hinit. cbv zeta. unfold audio_manager_update_wakeup_config.
  run_monad. rewrite Hinit; cbn. run_monad. unfold afe_wakeup_of.
  destruct (afe_wrapper_update_wakeup_config _ _ _) as [r w]; cbn.
  repeat split; auto.
  intros old. unfold audio_manager_get_wakeup_config. run_monad.
  rewrite Hinit. reflexivity.
Qed.

(** ** Operations that delegate to the playback controller and the AFE *)

(** [audio_manager_is_playing] passes the stored handle on, whatever the
    state. *)
Lemma is_playing_run s :
  audio_manager_is_playing s =
    let rw := playback_controller_is_running (playback_ctrl (s_ctx s)) (world s) in
    (fst rw, {| s_ctx := s_ctx s; world := snd rw |},
     [Call_playback_controller_is_running (playback_ctrl (s_ctx s)) (fst rw)]).
Proof.
  unfold audio_manager_is_playing. run_monad.
  destruct (playback_controller_is_running _ _); reflexivity.
Qed.

(** What the code does on an uninitialised context:
    [audio_manager_is_playing] tests nothing and calls the playback
    controller's is-running query with the [playback_ctrl] field as it
    stands (the null handle when the context is all zero), whereas
    play_audio, get_playback_free_space, start_playback, stop_playback,
    clear_playback_buffer and update_wakeup_config return without any
    call. *)
Lemma is_playing_has_no_initialized_guard s :
  initialized (s_ctx s) = false ->
  let rw := playback_controller_is_running (playback_ctrl (s_ctx s)) (world s) in
  result_of (audio_manager_is_playing s) = fst rw /\
  calls_of (audio_manager_is_playing s) =
    [Call_playback_controller_is_running (playback_ctrl (s_ctx s)) (fst rw)] /\
  (s_ctx s = s_ctx_zero ->
   calls_of (audio_manager_is_playing s) =
     [Call_playback_controller_is_running NULL
        (fst (playback_controller_is_running NULL (world s)))]) /\
  (forall p n, audio_manager_play_audio p n s = (ESP_ERR_INVALID_ARG, s, [])) /\
  audio_manager_get_playback_free_space s = (0, s, []) /\
  audio_manager_start_playback s = (ESP_ERR_INVALID_STATE, s, []) /\
  audio_manager_stop_playback s = (ESP_OK, s, []) /\
  audio_manager_clear_playback_buffer s = (ESP_ERR_INVALID_STATE, s, []) /\
  (forall cfg, audio_manager_update_wakeup_config cfg s =
               (ESP_ERR_INVALID_ARG, s, [])).
Proof.
  intros Hinit. cbv zeta. rewrite is_playing_run.
  unfold result_of, calls_of; cbn [fst snd].
  repeat apply conj; try reflexivity.
  - intros Hz. rewrite Hz. reflexivity.
  - intros p n. rewrite play_audio_run. unfold play_audio_rejects.
    rewrite Hinit. reflexivity.
  - unfold audio_manager_get_playback_free_space. run_monad.
    rewrite Hinit. reflexivity.
  - unfold audio_manager_start_playback. run_monad. rewrite Hinit. reflexivity.
  - unfold audio_manager_stop_playback. run_monad. rewrite Hinit. reflexivity.
  - unfold audio_manager_clear_playback_buffer. run_monad.
    rewrite Hinit. reflexivity.
  - intros cfg. unfold audio_manager_update_wakeup_config. run_monad.
    rewrite Hinit. reflexivity.
Qed.

(** ** Initialisation: the five creation steps *)

Lemma is_null_true (p : ptr) : is_null p = true -> p = NULL.
Proof. unfold is_null. apply N.eqb_eq. Qed.

Ltac unfold_init :=
  unfold audio_manager_init, init_i2s_hal, init_reference_rb,
    init_playback_ctrl, init_afe_wrapper, init_button_handler.

(** Splitting on the result of the next collaborator call or null test. *)
Ltac next_step :=
  match goal with
  | |- context [let (_, _) := ?f (world _) in _] =>
      let h := fresh "h" in let w := fresh "w" in
      destruct (f (world _)) as [h w] eqn:?; cbn
  | |- context [let (_, _) := ?X in _] =>
      lazymatch type of X with
      | (ptr * W)%type =>
          let h := fresh "h" in let w := fresh "w" in
          destruct X as [h w] eqn:?; cbn
      end
  | |- context [if is_null ?h then _ else _] =>
      let Hn := fresh "Hnull" in
      destruct (is_null h) eqn:Hn; cbn;
      [apply is_null_true in Hn; try subst h|]
  end.

(** Every way an [audio_manager_init] with valid arguments can go from an
    uninitialised context: the creation attempts made, the destructions
    made, the result, and the context left behind.  [c0] is the context
    after the configuration and the default volume are stored. *)
Lemma init_outcomes s (cfg : audio_mgr_config_t) :
  initialized (s_ctx s) = false ->
  is_null (event_callback cfg) = false ->
  let o := audio_manager_init (Some cfg) s in
  let c0 := set_volume 80 (set_config cfg (s_ctx s)) in
  (result_of o = ESP_ERR_NO_MEM /\
   creations (calls_of o) = [(I2sHal, NULL)] /\
   destructions (calls_of o) = [] /\
   s_ctx (state_of o) = set_i2s_hal NULL c0)
  \/
  (exists h1, is_null h1 = false /\
   result_of o = ESP_ERR_NO_MEM /\
   creations (calls_of o) = [(I2sHal, h1); (RingBuffer, NULL)] /\
   destructions (calls_of o) = [(I2sHal, h1)] /\
   s_ctx (state_of o) = set_reference_rb NULL (set_i2s_hal h1 c0))
  \/
  (exists h1 h2, is_null h1 = false /\ is_null h2 = false /\
   result_of o = ESP_ERR_NO_MEM /\
   creations (calls_of o) =
     [(I2sHal, h1); (RingBuffer, h2); (PlaybackCtrl, NULL)] /\
   destructions (calls_of o) = [(RingBuffer, h2); (I2sHal, h1)] /\
   s_ctx (state_of o) =
     set_playback_ctrl NULL (set_reference_rb h2 (set_i2s_hal h1 c0)))
  \/
  (exists h1 h2 h3 rb, is_null h1 = false /\ is_null h2 = false /\
   is_null h3 = false /\
   result_of o = ESP_ERR_NO_MEM /\
   creations (calls_of o) =
     [(I2sHal, h1); (RingBuffer, h2); (PlaybackCtrl, h3); (AfeWrapper, NULL)] /\
   destructions (calls_of o) = [(PlaybackCtrl, h3); (I2sHal, h1)] /\
   s_ctx (state_of o) =
     set_afe_wrapper NULL
       (set_reference_rb rb
          (set_playback_ctrl h3 (set_reference_rb h2 (set_i2s_hal h1 c0)))))
  \/
  (exists h1 h2 h3 rb h4, is_null h1 = false /\ is_null h2 = false /\
   is_null h3 = false /\ is_null h4 = false /\
   result_of o = ESP_ERR_NO_MEM /\
   creations (calls_of o) =
     [(I2sHal, h1); (RingBuffer, h2); (PlaybackCtrl, h3); (AfeWrapper, h4);
      (ButtonHandler, NULL)] /\
   destructions (calls_of o) =
     [(AfeWrapper, h4); (PlaybackCtrl, h3); (I2sHal, h1)] /\
   s_ctx (state_of o) =
     set_button_handler NULL
       (set_afe_wrapper h4
          (set_reference_rb rb
             (set_playback_ctrl h3 (set_reference_rb h2 (set_i2s_hal h1 c0))))))
  \/
  (exists h1 h2 h3 rb h4 h5, is_null h1 = false /\ is_null h2 = false /\
   is_null h3 = false /\ is_null h4 = false /\ is_null h5 = false /\
   result_of o = ESP_OK /\
   creations (calls_of o) =
     [(I2sHal, h1); (RingBuffer, h2); (PlaybackCtrl, h3); (AfeWrapper, h4);
      (ButtonHandler, h5)] /\
   destructions (calls_of o) = [] /\
   s_ctx (state_of o) =
     set_initialized true
       (set_button_handler h5
          (set_afe_wrapper h4
             (set_reference_rb rb
                (set_playback_ctrl h3
                   (set_reference_rb h2 (set_i2s_hal h1 c0))))))).
Proof.
  intros Hinit Hcb. cbv zeta. unfold_init. run_monad.
  rewrite Hinit, Hcb. cbn.
  next_step. next_step.
  { left. repeat apply conj; reflexivity. }
  right. next_step. next_step.
  { left. exists h. repeat apply conj; auto. }
  right. next_step. next_step.
  { left. exists h, h0. repeat apply conj; auto. }
  right. next_step. next_step. next_step.
  { left. exists h, h0, h1, h2. repeat apply conj; auto. }
  right. next_step. next_step.
  { left. exists h, h0, h1, h2, h3. repeat apply conj; auto. }
  right. exists h, h0, h1, h2, h3, h4. repeat apply conj; auto.
Qed.

(** C3: on an initialised context [audio_manager_init] returns ESP_OK at
    once, for any argument: it makes no call at all (nothing is created or
    destroyed) and the state, hence every field of the context, is
    unchanged.  When that context came out of a first [audio_manager_init]
    on an uninitialised one, that first call returned ESP_OK, and over both
    calls each of the five modules is created exactly once and none is
    destroyed. *)
Theorem init_idempotent s (config : option audio_mgr_config_t) :
  initialized (s_ctx s) = true ->
  audio_manager_init config s = (ESP_OK, s, []) /\
  (forall s0 config0,
     initialized (s_ctx s0) = false ->
     state_of (audio_manager_init config0 s0) = s ->
     result_of (audio_manager_init config0 s0) = ESP_OK /\
     (forall k,
        creation_count k
          (calls_of (audio_manager_init config0 s0) ++
           calls_of (audio_manager_init config s)) = 1%nat) /\
     destructions
       (calls_of (audio_manager_init config0 s0) ++
        calls_of (audio_manager_init config s)) = []).
Proof.
  intros Hinit. split; [now apply init_when_initialized|].
  intros s0 config0 Hinit0 Hs.
  rewrite (init_when_initialized s config Hinit).
  unfold calls_of at 2 4; cbn [snd]. rewrite app_nil_r.
  assert (Hafter : initialized (s_ctx (state_of (audio_manager_init config0 s0))) = true)
    by (rewrite Hs; exact Hinit).
  destruct config0 as [cfg|].
  2:{ rewrite (init_rejects_null_config s0 Hinit0) in Hafter.
      cbn in Hafter. congruence. }
  destruct (is_null (event_callback cfg)) eqn:Hcb.
  { rewrite (init_rejects_null_callback s0 cfg Hinit0 Hcb) in Hafter.
    cbn in Hafter. congruence. }
  destruct (init_outcomes s0 cfg Hinit0 Hcb)
    as [H|[H|[H|[H|[H|H]]]]].
  - destruct H as (_ & _ & _ & Hc). rewrite Hc in Hafter.
    cbn in Hafter. congruence.
  - destruct H as (h1 & _ & _ & _ & _ & Hc). rewrite Hc in Hafter.
    cbn in Hafter. congruence.
  - destruct H as (h1 & h2 & _ & _ & _ & _ & _ & Hc). rewrite Hc in Hafter.
    cbn in Hafter. congruence.
  - destruct H as (h1 & h2 & h3 & rb & _ & _ & _ & _ & _ & _ & Hc).
    rewrite Hc in Hafter. cbn in Hafter. congruence.
  - destruct H as (h1 & h2 & h3 & rb & h4 & _ & _ & _ & _ & _ & _ & _ & Hc).
    rewrite Hc in Hafter. cbn in Hafter. congruence.
  - destruct H as (h1 & h2 & h3 & rb & h4 & h5 & _ & _ & _ & _ & _ & Hr & Hcre & Hdes & _).
    repeat apply conj; auto.
    intros k. unfold creation_count. rewrite Hcre. destruct k; reflexivity.
Qed.

(** C1, amended: when [audio_manager_init] is called on an uninitialised
    context and one of its creations fails, it returns
    ESP_ERR_NO_MEM; the creations attempted are the first [k+1] of the fixed
    order, of which the first [k] succeeded; the modules created so far
    whose handle the context owns (I2S HAL, playback controller, AFE
    wrapper) are destroyed in reverse creation order, and when the failure
    is at step 3 or before, everything created so far is, the reference
    buffer included.  [initialized] stays false and [running], [recording]
    and the record callback are untouched, but the context is not put
    back: it holds the new configuration and the volume 80. *)
Theorem init_rollback_on_failure s (cfg : audio_mgr_config_t) :
  initialized (s_ctx s) = false ->
  (exists kind,
     In (kind, NULL) (creations (calls_of (audio_manager_init (Some cfg) s)))) ->
  let o := audio_manager_init (Some cfg) s in
  result_of o = ESP_ERR_NO_MEM /\
  (exists k, (k < 5)%nat /\
     map fst (creations (calls_of o)) = firstn (S k) creation_order /\
     map fst (created (calls_of o)) = firstn k creation_order /\
     ((k <= 2)%nat -> destructions (calls_of o) = rev (created (calls_of o)))) /\
  filter owned (destructions (calls_of o)) =
    rev (filter owned (created (calls_of o))) /\
  initialized (s_ctx (state_of o)) = false /\
  running (s_ctx (state_of o)) = running (s_ctx s) /\
  recording (s_ctx (state_of o)) = recording (s_ctx s) /\
  record_callback (s_ctx (state_of o)) = record_callback (s_ctx s) /\
  record_ctx (s_ctx (state_of o)) = record_ctx (s_ctx s) /\
  config (s_ctx (state_of o)) = cfg /\
  volume (s_ctx (state_of o)) = 80.
Proof.
  intros Hinit [kind Hfail]. cbv zeta.
  destruct (is_null (event_callback cfg)) eqn:Hcb.
  { rewrite (init_rejects_null_callback s cfg Hinit Hcb) in Hfail.
    destruct Hfail. }
  destruct (init_outcomes s cfg Hinit Hcb)
    as [H|[H|[H|[H|[H|H]]]]].
  - destruct H as (Hr & Hcre & Hdes & Hc).
    unfold created. rewrite Hr, Hcre, Hdes, Hc. cbn.
    repeat apply conj; auto.
    exists 0%nat. repeat apply conj; auto; try lia.
  - destruct H as (h1 & N1 & Hr & Hcre & Hdes & Hc).
    unfold created. rewrite Hr, Hcre, Hdes, Hc. cbn. rewrite N1. cbn.
    repeat apply conj; auto.
    exists 1%nat. repeat apply conj; auto; try lia.
  - destruct H as (h1 & h2 & N1 & N2 & Hr & Hcre & Hdes & Hc).
    unfold created. rewrite Hr, Hcre, Hdes, Hc. cbn. rewrite N1, N2. cbn.
    repeat apply conj; auto.
    exists 2%nat. repeat apply conj; auto; try lia.
  - destruct H as (h1 & h2 & h3 & rb & N1 & N2 & N3 & Hr & Hcre & Hdes & Hc).
    unfold created. rewrite Hr, Hcre, Hdes, Hc. cbn. rewrite N1, N2, N3. cbn.
    repeat apply conj; auto.
    exists 3%nat. repeat apply conj; auto; try lia.
  - destruct H as (h1 & h2 & h3 & rb & h4 & N1 & N2 & N3 & N4 & Hr & Hcre & Hdes & Hc).
    unfold created. rewrite Hr, Hcre, Hdes, Hc. cbn. rewrite N1, N2, N3, N4. cbn.
    repeat apply conj; auto.
    exists 4%nat. repeat apply conj; auto; try lia.
  - exfalso.
    destruct H as (h1 & h2 & h3 & rb & h4 & h5 & N1 & N2 & N3 & N4 & N5 & _ & Hcre & _).
    rewrite Hcre in Hfail. cbn in Hfail.
    assert (Hn : is_null NULL = true) by reflexivity.
    repeat (destruct Hfail as [Hfail|Hfail];
            [inversion Hfail; subst; congruence|]).
    exact Hfail.
Qed.

(** ** Teardown *)

(** The context [audio_manager_deinit] leaves behind. *)
Lemma deinit_ctx s :
  s_ctx (state_of (audio_manager_deinit s)) =
    if initialized (s_ctx s) then s_ctx_zero else s_ctx s.
Proof.
  unfold audio_manager_deinit, audio_manager_stop, audio_manager_stop_playback.
  run_monad.
  destruct (initialized (s_ctx s)) eqn:Hinit; cbn; [|reflexivity].
  destruct (running (s_ctx s)); cbn; rewrite Hinit; cbn;
    destruct (playback_controller_stop _ _); cbn;
    destruct (is_null (button_handler (s_ctx s))); cbn;
    destruct (is_null (afe_wrapper (s_ctx s))); cbn;
    destruct (is_null (playback_ctrl (s_ctx s))); cbn;
    destruct (is_null (i2s_hal (s_ctx s))); reflexivity.
Qed.

Lemma handles_live_zero : handles_live s_ctx_zero.
Proof. unfold handles_live. cbn. discriminate. Qed.

(** The context [audio_manager_init] leaves behind satisfies the
    invariant. *)
Lemma init_preserves_handles_live s (config : option audio_mgr_config_t) :
  handles_live (s_ctx s) ->
  handles_live (s_ctx (state_of (audio_manager_init config s))).
Proof.
  intros Hlive.
  destruct (initialized (s_ctx s)) eqn:Hinit.
  { now rewrite (init_when_initialized s config Hinit). }
  destruct config as [cfg|].
  2:{ now rewrite (init_rejects_null_config s Hinit). }
  destruct (is_null (event_callback cfg)) eqn:Hcb.
  { now rewrite (init_rejects_null_callback s cfg Hinit Hcb). }
  destruct (init_outcomes s cfg Hinit Hcb)
    as [H|[H|[H|[H|[H|H]]]]].
  - destruct H as (_ & _ & _ & Hc). rewrite Hc.
    unfold handles_live; cbn. congruence.
  - destruct H as (h1 & _ & _ & _ & _ & Hc). rewrite Hc.
    unfold handles_live; cbn. congruence.
  - destruct H as (h1 & h2 & _ & _ & _ & _ & _ & Hc). rewrite Hc.
    unfold handles_live; cbn. congruence.
  - destruct H as (h1 & h2 & h3 & rb & _ & _ & _ & _ & _ & _ & Hc).
    rewrite Hc. unfold handles_live; cbn. congruence.
  - destruct H as (h1 & h2 & h3 & rb & h4 & _ & _ & _ & _ & _ & _ & _ & Hc).
    rewrite Hc. unfold handles_live; cbn. congruence.
  - destruct H as (h1 & h2 & h3 & rb & h4 & h5 & N1 & _ & N3 & N4 & N5 & _ & _ & _ & Hc).
    rewrite Hc. unfold handles_live; cbn. auto.
Qed.

(** Splitting on every test and collaborator result in sight. *)
Ltac split_all :=
  repeat (match goal with
          | |- context [if ?b then _ else _] => destruct b
          | |- context [match ?o with Some _ => _ | None => _ end] => destruct o
          | |- context [let (_, _) := ?f (world ?s) in _] => destruct (f (world s))
          end; run_monad).

(** No operation breaks the invariant. *)
Lemma exec_preserves_handles_live (o : operation) s :
  handles_live (s_ctx s) -> handles_live (s_ctx (state_of (exec o s))).
Proof.
  intros Hlive.
  destruct o as [cfg| | | | | | |p n| | | | |v| |cfg|cfg| | | |cb uc|e|e|p n];
    unfold exec, discard.
  - pose proof (init_preserves_handles_live s cfg Hlive) as H.
    revert H. run_monad.
    destruct (audio_manager_init cfg s) as [[r s'] l]. cbn. auto.
  - rewrite deinit_ctx. destruct (initialized (s_ctx s)); auto using handles_live_zero.
  - unfold audio_manager_start. run_monad. split_all; auto.
  - unfold audio_manager_stop. run_monad. split_all; auto.
  - unfold audio_manager_trigger_conversation. run_monad. split_all; auto.
  - unfold audio_manager_start_recording. run_monad. split_all; auto.
  - unfold audio_manager_stop_recording. run_monad. split_all; auto.
  - unfold audio_manager_play_audio. run_monad. split_all; auto.
  - unfold audio_manager_get_playback_free_space. run_monad. split_all; auto.
  - unfold audio_manager_start_playback. run_monad. split_all; auto.
  - unfold audio_manager_stop_playback. run_monad. split_all; auto.
  - unfold audio_manager_clear_playback_buffer. run_monad. split_all; auto.
  - unfold audio_manager_set_volume. run_monad. auto.
  - unfold audio_manager_get_volume. run_monad. auto.
  - unfold audio_manager_update_wakeup_config. run_monad. split_all; auto.
  - unfold audio_manager_get_wakeup_config. run_monad. split_all; auto.
  - unfold audio_manager_is_running. run_monad. auto.
  - unfold audio_manager_is_recording. run_monad. auto.
  - unfold audio_manager_is_playing. run_monad. split_all; auto.
  - unfold audio_manager_set_record_callback. run_monad. auto.
  - unfold button_event_handler. run_monad. split_all; auto.
  - unfold afe_event_handler. run_monad. split_all; auto.
  - unfold afe_record_handler. run_monad. split_all; auto.
Qed.

(** Every state the program can be in satisfies the invariant. *)
Lemma reachable_handles_live s : reachable s -> handles_live (s_ctx s).
Proof.
  induction 1 as [w|o s Hs IH|s w Hs IH].
  - exact handles_live_zero.
  - now apply exec_preserves_handles_live.
  - exact IH.
Qed.

Lemma reachable_exec_all (ops : list operation) s :
  reachable s -> reachable (exec_all ops s).
Proof.
  revert s. induction ops as [|o ops IH]; intros s Hs; cbn.
  - exact Hs.
  - apply IH. now apply reachable_step.
Qed.

(** C7: in every state the program can be in, [audio_manager_deinit] does
    nothing on an uninitialised context; on an initialised one it clears the
    listening flags, calls the playback controller's stop, then destroys the
    button handler, the AFE wrapper, the playback controller and the I2S
    HAL, in that order (the reverse of their creation order), each with the
    handle the context holds, makes no other call (the reference buffer is
    not destroyed), and leaves the all-zero context: is_running and
    is_recording then return false and a following [audio_manager_init]
    runs exactly as on the context the program starts with. *)
Theorem deinit_tears_down_in_reverse s :
  reachable s ->
  let o := audio_manager_deinit s in
  let c := s_ctx s in
  if initialized c then
    let rw := playback_controller_stop (playback_ctrl c) (world s) in
    calls_of o =
      [Call_playback_controller_stop (playback_ctrl c) (fst rw);
       Call_button_handler_destroy (button_handler c);
       Call_afe_wrapper_destroy (afe_wrapper c);
       Call_playback_controller_destroy (playback_ctrl c);
       Call_i2s_hal_destroy (i2s_hal c)] /\
    destructions (calls_of o) =
      [(ButtonHandler, button_handler c); (AfeWrapper, afe_wrapper c);
       (PlaybackCtrl, playback_ctrl c); (I2sHal, i2s_hal c)] /\
    map fst (destructions (calls_of o)) =
      rev (filter (fun k => negb (module_kind_eqb k RingBuffer)) creation_order) /\
    world (state_of o) =
      i2s_hal_destroy (i2s_hal c)
        (playback_controller_destroy (playback_ctrl c)
           (afe_wrapper_destroy (afe_wrapper c)
              (button_handler_destroy (button_handler c) (snd rw)))) /\
    s_ctx (state_of o) = s_ctx_zero /\
    result_of (audio_manager_is_running (state_of o)) = false /\
    result_of (audio_manager_is_recording (state_of o)) = false /\
    (forall config,
       audio_manager_init config (state_of o) =
       audio_manager_init config
         {| s_ctx := s_ctx_zero; world := world (state_of o) |})
  else o = (tt, s, []).
Proof.
  intros Hreach. cbv zeta.
  pose proof (reachable_handles_live s Hreach) as Hlive.
  destruct (initialized (s_ctx s)) eqn:Hinit.
  2:{ unfold audio_manager_deinit. run_monad. rewrite Hinit. reflexivity. }
  destruct (Hlive Hinit) as (N1 & N2 & N3 & N4).
  assert (Hrun :
    let rw := playback_controller_stop (playback_ctrl (s_ctx s)) (world s) in
    audio_manager_deinit s =
      (tt,
       {| s_ctx := s_ctx_zero;
          world :=
            i2s_hal_destroy (i2s_hal (s_ctx s))
              (playback_controller_destroy (playback_ctrl (s_ctx s))
                 (afe_wrapper_destroy (afe_wrapper (s_ctx s))
                    (button_handler_destroy (button_handler (s_ctx s)) (snd rw)))) |},
       [Call_playback_controller_stop (playback_ctrl (s_ctx s)) (fst rw);
        Call_button_handler_destroy (button_handler (s_ctx s));
        Call_afe_wrapper_destroy (afe_wrapper (s_ctx s));
        Call_playback_controller_destroy (playback_ctrl (s_ctx s));
        Call_i2s_hal_destroy (i2s_hal (s_ctx s))])).
  { cbv zeta.
    unfold audio_manager_deinit, audio_manager_stop, audio_manager_stop_playback.
    run_monad. rewrite Hinit. cbn.
    destruct (running (s_ctx s)); cbn; rewrite Hinit; cbn;
      destruct (playback_controller_stop _ _) as [r w]; cbn;
      rewrite N4; cbn; rewrite N3; cbn; rewrite N2; cbn; rewrite N1;
      reflexivity. }
  cbv zeta in Hrun. rewrite Hrun. unfold calls_of, state_of, result_of.
  cbn [fst snd s_ctx world].
  repeat apply conj; reflexivity.
Qed.

(** ** Invariants of the reachable states *)

Lemma ctx_inv_zero : ctx_inv s_ctx_zero.
Proof.
  unfold ctx_inv, flags_guarded, callback_registered, volume_in_range. cbn.
  repeat apply conj; auto; try discriminate; lia.
Qed.

(** The volume [audio_manager_set_volume] stores. *)
Lemma clamped_volume_range (v : Z) :
  0 <= (if 100 <? v mod 2 ^ 8 then 100 else v mod 2 ^ 8) <= 100.
Proof.
  pose proof (Z.mod_pos_bound v (2 ^ 8) ltac:(lia)) as Hb.
  destruct (Z.ltb_spec 100 (v mod 2 ^ 8)); lia.
Qed.

Lemma init_preserves_ctx_inv s (config : option audio_mgr_config_t) :
  ctx_inv (s_ctx s) ->
  ctx_inv (s_ctx (state_of (audio_manager_init config s))).
Proof.
  intros Hinv.
  destruct (initialized (s_ctx s)) eqn:Hinit.
  { now rewrite (init_when_initialized s config Hinit). }
  destruct config as [cfg|].
  2:{ now rewrite (init_rejects_null_config s Hinit). }
  destruct (is_null (event_callback cfg)) eqn:Hcb.
  { now rewrite (init_rejects_null_callback s cfg Hinit Hcb). }
  destruct Hinv as (Hf & _ & _). destruct (Hf Hinit) as [Hrun Hrec].
  unfold ctx_inv, flags_guarded, callback_registered, volume_in_range.
  destruct (init_outcomes s cfg Hinit Hcb)
    as [H|[H|[H|[H|[H|H]]]]].
  - destruct H as (_ & _ & _ & Hc). rewrite Hc. cbn.
    repeat apply conj; auto; try congruence; lia.
  - destruct H as (h1 & _ & _ & _ & _ & Hc). rewrite Hc. cbn.
    repeat apply conj; auto; try congruence; lia.
  - destruct H as (h1 & h2 & _ & _ & _ & _ & _ & Hc). rewrite Hc. cbn.
    repeat apply conj; auto; try congruence; lia.
  - destruct H as (h1 & h2 & h3 & rb & _ & _ & _ & _ & _ & _ & Hc).
    rewrite Hc. cbn. repeat apply conj; auto; try congruence; lia.
  - destruct H as (h1 & h2 & h3 & rb & h4 & _ & _ & _ & _ & _ & _ & _ & Hc).
    rewrite Hc. cbn. repeat apply conj; auto; try congruence; lia.
  - destruct H as (h1 & h2 & h3 & rb & h4 & h5 & _ & _ & _ & _ & _ & _ & _ & _ & Hc).
    rewrite Hc. cbn. repeat apply conj; auto; try discriminate; lia.
Qed.

Ltac close_inv :=
  unfold ctx_inv, flags_guarded, callback_registered, volume_in_range in *;
  cbn in *; intuition congruence.

Lemma exec_preserves_ctx_inv (o : operation) s :
  ctx_inv (s_ctx s) -> ctx_inv (s_ctx (state_of (exec o s))).
Proof.
  intros Hinv.
  destruct o as [cfg| | | | | | |p n| | | | |v| |cfg|cfg| | | |cb uc|e|e|p n];
    unfold exec, discard.
  - pose proof (init_preserves_ctx_inv s cfg Hinv) as H.
    revert H. run_monad.
    destruct (audio_manager_init cfg s) as [[r s'] l]. cbn. auto.
  - rewrite deinit_ctx. destruct (initialized (s_ctx s)); auto using ctx_inv_zero.
  - unfold audio_manager_start. run_monad.
    destruct (initialized (s_ctx s)) eqn:?; cbn; [|exact Hinv].
    destruct (running (s_ctx s)) eqn:?; cbn; [exact Hinv|]. close_inv.
  - unfold audio_manager_stop. run_monad.
    destruct (running (s_ctx s)) eqn:?; cbn; [|exact Hinv]. close_inv.
  - unfold audio_manager_trigger_conversation. run_monad. split_all; auto.
  - unfold audio_manager_start_recording. run_monad.
    destruct (initialized (s_ctx s)) eqn:?; cbn; [|exact Hinv]. close_inv.
  - unfold audio_manager_stop_recording. run_monad.
    destruct (recording (s_ctx s)) eqn:?; cbn; [|exact Hinv]. close_inv.
  - unfold audio_manager_play_audio. run_monad. split_all; auto.
  - unfold audio_manager_get_playback_free_space. run_monad. split_all; auto.
  - unfold audio_manager_start_playback. run_monad. split_all; auto.
  - unfold audio_manager_stop_playback. run_monad. split_all; auto.
  - unfold audio_manager_clear_playback_buffer. run_monad. split_all; auto.
  - unfold audio_manager_set_volume. run_monad.
    pose proof (clamped_volume_range v).
    unfold ctx_inv, flags_guarded, callback_registered, volume_in_range in *.
    cbn. intuition.
  - unfold audio_manager_get_volume. run_monad. auto.
  - unfold audio_manager_update_wakeup_config. run_monad.
    destruct (initialized (s_ctx s)) eqn:?; cbn; [|exact Hinv].
    destruct cfg as [cfg|]; cbn; [|exact Hinv].
    run_monad. destruct (afe_wrapper_update_wakeup_config _ _ _); cbn.
    close_inv.
  - unfold audio_manager_get_wakeup_config. run_monad. split_all; auto.
  - unfold audio_manager_is_running. run_monad. auto.
  - unfold audio_manager_is_recording. run_monad. auto.
  - unfold audio_manager_is_playing. run_monad. split_all; auto.
  - unfold audio_manager_set_record_callback. run_monad. close_inv.
  - unfold button_event_handler. run_monad. split_all; auto.
  - unfold afe_event_handler. run_monad. split_all; auto.
  - unfold afe_record_handler. run_monad. split_all; auto.
Qed.

Lemma reachable_ctx_inv s : reachable s -> ctx_inv (s_ctx s).
Proof.
  induction 1 as [w|o s Hs IH|s w Hs IH].
  - exact ctx_inv_zero.
  - now apply exec_preserves_ctx_inv.
  - exact IH.
Qed.

(** X1: in every state the program can be in, the listening flag or the
    recording flag being set implies that the orchestrator is initialised;
    so is_running and is_recording answer false whenever it is not. *)
Theorem reachable_flags_require_initialized s :
  reachable s ->
  (running (s_ctx s) = true \/ recording (s_ctx s) = true ->
   initialized (s_ctx s) = true) /\
  (initialized (s_ctx s) = false ->
   result_of (audio_manager_is_running s) = false /\
   result_of (audio_manager_is_recording s) = false).
Proof.
  intros Hreach. destruct (reachable_ctx_inv s Hreach) as (Hf & _ & _).
  unfold flags_guarded in Hf. split.
  - intros Hflag. destruct (initialized (s_ctx s)); [reflexivity|].
    destruct (Hf eq_refl) as [Hr Hc]. destruct Hflag; congruence.
  - intros Hinit. destruct (Hf Hinit) as [Hr Hc].
    unfold audio_manager_is_running, audio_manager_is_recording. run_monad.
    auto.
Qed.

(** X2: in every state the program can be in, the stored volume, which is
    what get_volume returns, lies between 0 and 100: it is 0 before init and
    after deinit, 80 after init, and clamped by set_volume. *)
Theorem reachable_volume_in_range s :
  reachable s ->
  0 <= result_of (audio_manager_get_volume s) <= 100 /\
  result_of (audio_manager_get_volume s) = volume (s_ctx s).
Proof.
  intros Hreach. destruct (reachable_ctx_inv s Hreach) as (_ & _ & Hv).
  unfold audio_manager_get_volume. run_monad. split; [exact Hv|reflexivity].
Qed.

(** ** A successful initialisation *)

(** The whole outcome of an [audio_manager_init] that returns ESP_OK from an
    uninitialised context: the six calls with their arguments, and the
    context. *)
Lemma init_success_run s (cfg : audio_mgr_config_t) :
  initialized (s_ctx s) = false ->
  is_null (event_callback cfg) = false ->
  result_of (audio_manager_init (Some cfg) s) = ESP_OK ->
  exists h1 h2 h3 rb h4 h5 w,
    is_null h1 = false /\ is_null h2 = false /\ is_null h3 = false /\
    is_null h4 = false /\ is_null h5 = false /\
    let c0 := set_volume 80 (set_config cfg (s_ctx s)) in
    let c1 := set_i2s_hal h1 c0 in
    let c2 := set_reference_rb h2 c1 in
    let c3 := set_reference_rb rb (set_playback_ctrl h3 c2) in
    let c4 := set_afe_wrapper h4 c3 in
    audio_manager_init (Some cfg) s =
      (ESP_OK,
       {| s_ctx := set_initialized true (set_button_handler h5 c4); world := w |},
       [Call_i2s_hal_create (mic_cfg_of cfg) (speaker_cfg_of cfg) h1;
        Call_ring_buffer_create (REFERENCE_BUFFER_SIZE / sizeof_int16_t) false h2;
        Call_playback_controller_create (playback_cfg_of c2) h3;
        Call_playback_controller_get_reference_buffer h3 rb;
        Call_afe_wrapper_create (afe_cfg_of cfg c3) h4;
        Call_button_handler_create (button_cfg_of cfg) h5]).
Proof.
  intros Hinit Hcb. cbv zeta. unfold_init. run_monad.
  rewrite Hinit, Hcb. cbn.
  next_step. next_step. { discriminate. }
  next_step. next_step. { discriminate. }
  next_step. next_step. { discriminate. }
  next_step. next_step. next_step. { discriminate. }
  next_step. next_step. { discriminate. }
  intros _. exists h, h0, h1, h2, h3, h4, w4.
  repeat apply conj; auto.
Qed.

(** What [audio_manager_init] returns for a given argument on an
    uninitialised context that rejects it. *)
Lemma init_invalid_config s (config : option audio_mgr_config_t) :
  initialized (s_ctx s) = false ->
  match config with
  | None => True
  | Some cfg => is_null (event_callback cfg) = true
  end ->
  audio_manager_init config s = (ESP_ERR_INVALID_ARG, s, []).
Proof.
  intros Hinit Harg. destruct config as [cfg|].
  - now apply init_rejects_null_callback.
  - now apply init_rejects_null_config.
Qed.

(** On an uninitialised context and valid arguments the result is ESP_OK
    with [initialized] set, or ESP_ERR_NO_MEM with [initialized] clear. *)
Lemma init_valid_result s (cfg : audio_mgr_config_t) :
  initialized (s_ctx s) = false ->
  is_null (event_callback cfg) = false ->
  let o := audio_manager_init (Some cfg) s in
  (result_of o = ESP_OK /\ initialized (s_ctx (state_of o)) = true) \/
  (result_of o = ESP_ERR_NO_MEM /\ initialized (s_ctx (state_of o)) = false).
Proof.
  intros Hinit Hcb. cbv zeta.
  destruct (init_outcomes s cfg Hinit Hcb)
    as [H|[H|[H|[H|[H|H]]]]].
  - destruct H as (Hr & _ & _ & Hc). right. rewrite Hr, Hc. auto.
  - destruct H as (h1 & _ & Hr & _ & _ & Hc). right. rewrite Hr, Hc. auto.
  - destruct H as (h1 & h2 & _ & _ & Hr & _ & _ & Hc).
    right. rewrite Hr, Hc. auto.
  - destruct H as (h1 & h2 & h3 & rb & _ & _ & _ & Hr & _ & _ & Hc).
    right. rewrite Hr, Hc. auto.
  - destruct H as (h1 & h2 & h3 & rb & h4 & _ & _ & _ & _ & Hr & _ & _ & Hc).
    right. rewrite Hr, Hc. auto.
  - destruct H as (h1 & h2 & h3 & rb & h4 & h5 & _ & _ & _ & _ & _ & Hr & _ & _ & Hc).
    left. rewrite Hr, Hc. auto.
Qed.

(** An ESP_OK from an uninitialised context means the argument was valid. *)
Lemma init_ok_valid_config s (config : option audio_mgr_config_t) :
  initialized (s_ctx s) = false ->
  result_of (audio_manager_init config s) = ESP_OK ->
  exists cfg, config = Some cfg /\ is_null (event_callback cfg) = false.
Proof.
  intros Hinit Hok. destruct config as [cfg|].
  - destruct (is_null (event_callback cfg)) eqn:Hcb.
    + rewrite (init_rejects_null_callback s cfg Hinit Hcb) in Hok. discriminate Hok.
    + now exists cfg.
  - rewrite (init_rejects_null_config s Hinit) in Hok. discriminate Hok.
Qed.

(** X3: whatever the state and the argument, [audio_manager_init] returns
    ESP_OK, ESP_ERR_INVALID_ARG or ESP_ERR_NO_MEM; it returns ESP_OK exactly
    when the context is initialised afterwards; and when it returns
    ESP_ERR_INVALID_ARG it has made no call and changed nothing. *)
Theorem init_ok_iff_initialized s (config : option audio_mgr_config_t) :
  let o := audio_manager_init config s in
  (result_of o = ESP_OK <-> initialized (s_ctx (state_of o)) = true) /\
  (result_of o = ESP_OK \/ result_of o = ESP_ERR_INVALID_ARG \/
   result_of o = ESP_ERR_NO_MEM) /\
  (result_of o = ESP_ERR_INVALID_ARG -> state_of o = s /\ calls_of o = []).
Proof.
  cbv zeta.
  destruct (initialized (s_ctx s)) eqn:Hinit.
  { rewrite (init_when_initialized s config Hinit). cbn.
    repeat apply conj; auto; try discriminate. }
  assert (Hbad : match config with
                 | None => True
                 | Some cfg => is_null (event_callback cfg) = true
                 end ->
                 audio_manager_init config s = (ESP_ERR_INVALID_ARG, s, []))
    by apply (init_invalid_config s config Hinit).
  destruct config as [cfg|].
  2:{ rewrite (Hbad I). cbn. rewrite Hinit.
      repeat apply conj; auto; try discriminate. }
  destruct (is_null (event_callback cfg)) eqn:Hcb.
  { rewrite (Hbad eq_refl). cbn. rewrite Hinit.
    repeat apply conj; auto; try discriminate. }
  destruct (init_valid_result s cfg Hinit Hcb) as [[Hr Hi]|[Hr Hi]];
    rewrite Hr, Hi; repeat apply conj; auto; try discriminate.
Qed.

(** X4: when [audio_manager_init] returns ESP_OK from an uninitialised
    context (fresh, torn down, or left behind by a failed init), it has made
    exactly six calls, in this order: the five creations and, after the
    playback controller's, the query for its reference buffer.  The playback
    controller and the AFE wrapper are created on the I2S HAL just created;
    the AFE wrapper is given the buffer the playback controller returned
    (not the one created at step 2), the orchestrator's two handlers and
    the addresses of the running and recording flags; the playback
    controller is given the address of the volume.  The context then holds
    the five new handles, all non-null, the configuration passed in and the
    volume 80; the flags and the record callback are as before. *)
Theorem init_success_wiring s (arg : option audio_mgr_config_t) :
  initialized (s_ctx s) = false ->
  result_of (audio_manager_init arg s) = ESP_OK ->
  let o := audio_manager_init arg s in
  let c := s_ctx (state_of o) in
  exists cfg h2 pc ac,
    arg = Some cfg /\
    calls_of o =
      [Call_i2s_hal_create (mic_cfg_of cfg) (speaker_cfg_of cfg) (i2s_hal c);
       Call_ring_buffer_create (REFERENCE_BUFFER_SIZE / sizeof_int16_t) false h2;
       Call_playback_controller_create pc (playback_ctrl c);
       Call_playback_controller_get_reference_buffer (playback_ctrl c)
         (reference_rb c);
       Call_afe_wrapper_create ac (afe_wrapper c);
       Call_button_handler_create (button_cfg_of cfg) (button_handler c)] /\
    is_null h2 = false /\
    pb_i2s_hal pc = i2s_hal c /\ pb_volume_ptr pc = Ref_volume /\
    afe_i2s_hal ac = i2s_hal c /\ afe_reference_rb ac = reference_rb c /\
    afe_cfg_wakeup ac = afe_wakeup_of (wakeup_config cfg) /\
    afe_event_callback ac = Fn_afe_event_handler /\
    afe_record_callback ac = Fn_afe_record_handler /\
    afe_running_ptr ac = Ref_running /\ afe_recording_ptr ac = Ref_recording /\
    is_null (i2s_hal c) = false /\ is_null (playback_ctrl c) = false /\
    is_null (afe_wrapper c) = false /\ is_null (button_handler c) = false /\
    initialized c = true /\ config c = cfg /\ volume c = 80 /\
    running c = running (s_ctx s) /\ recording c = recording (s_ctx s) /\
    record_callback c = record_callback (s_ctx s) /\
    record_ctx c = record_ctx (s_ctx s).
Proof.
  intros Hinit Hok. cbv zeta.
  destruct (init_ok_valid_config s arg Hinit Hok) as (cfg & -> & Hcb).
  destruct (init_success_run s cfg Hinit Hcb Hok)
    as (h1 & h2 & h3 & rb & h4 & h5 & w & N1 & N2 & N3 & N4 & N5 & Hrun).
  cbv zeta in Hrun. rewrite Hrun.
  unfold calls_of, state_of; cbn [fst snd s_ctx].
  eexists cfg, h2, _, _.
  repeat apply conj; try reflexivity; assumption.
Qed.

(** ** Initialisation followed by teardown *)

(** [audio_manager_deinit] on an initialised context with four live
    handles. *)
Lemma deinit_run_live s :
  initialized (s_ctx s) = true ->
  is_null (i2s_hal (s_ctx s)) = false ->
  is_null (playback_ctrl (s_ctx s)) = false ->
  is_null (afe_wrapper (s_ctx s)) = false ->
  is_null (button_handler (s_ctx s)) = false ->
  exists r w,
    audio_manager_deinit s =
      (tt, {| s_ctx := s_ctx_zero; world := w |},
       [Call_playback_controller_stop (playback_ctrl (s_ctx s)) r;
        Call_button_handler_destroy (button_handler (s_ctx s));
        Call_afe_wrapper_destroy (afe_wrapper (s_ctx s));
        Call_playback_controller_destroy (playback_ctrl (s_ctx s));
        Call_i2s_hal_destroy (i2s_hal (s_ctx s))]).
Proof.
  intros Hinit N1 N2 N3 N4.
  unfold audio_manager_deinit, audio_manager_stop, audio_manager_stop_playback.
  run_monad. rewrite Hinit. cbn.
  destruct (running (s_ctx s)); cbn; rewrite Hinit; cbn;
    destruct (playback_controller_stop _ _) as [r w]; cbn;
    rewrite N4; cbn; rewrite N3; cbn; rewrite N2; cbn; rewrite N1;
    eexists _, _; reflexivity.
Qed.

(** X5: an [audio_manager_init] that returned ESP_OK followed by
    [audio_manager_deinit]: the teardown destroys the four modules whose
    handle the context owns, each once and with the handle its creation
    returned, in the reverse of their creation order, and leaves the
    all-zero context.  The ring buffer created at step 2 of the
    initialisation is destroyed by neither call. *)
Theorem init_then_deinit_releases_owned_modules s
  (arg : option audio_mgr_config_t) :
  initialized (s_ctx s) = false ->
  result_of (audio_manager_init arg s) = ESP_OK ->
  let o1 := audio_manager_init arg s in
  let o2 := audio_manager_deinit (state_of o1) in
  destructions (calls_of o1) = [] /\
  destructions (calls_of o2) = rev (filter owned (created (calls_of o1))) /\
  s_ctx (state_of o2) = s_ctx_zero /\
  (exists h, is_null h = false /\ In (RingBuffer, h) (created (calls_of o1))) /\
  (forall h, ~ In (RingBuffer, h) (destructions (calls_of o1 ++ calls_of o2))).
Proof.
  intros Hinit Hok. cbv zeta.
  destruct (init_ok_valid_config s arg Hinit Hok) as (cfg & -> & Hcb).
  destruct (init_success_run s cfg Hinit Hcb Hok)
    as (h1 & h2 & h3 & rb & h4 & h5 & w & N1 & N2 & N3 & N4 & N5 & Hrun).
  cbv zeta in Hrun. rewrite Hrun.
  unfold calls_of, state_of. cbn [fst snd].
  match goal with
  | |- context [audio_manager_deinit ?st] =>
      destruct (deinit_run_live st eq_refl N1 N3 N4 N5) as (r & w' & Hd);
      rewrite Hd
  end.
  unfold created. cbn.
  rewrite N1, N2, N3, N4, N5. cbn.
  repeat apply conj; try reflexivity.
  - exists h2. split; [exact N2|]. right; left; reflexivity.
  - intros h [H|[H|[H|[H|[]]]]]; discriminate H.
Qed.

(** X6: after an [audio_manager_init] that returned ESP_OK,
    get_wakeup_config copies out the wake-word configuration that was
    passed to init, without any call or change; before that init it returned
    ESP_ERR_INVALID_ARG and left the caller's buffer as it was, and with a
    null buffer it returns ESP_ERR_INVALID_ARG. *)
Theorem get_wakeup_config_returns_init_config s
  (arg : option audio_mgr_config_t) (old : audio_mgr_wakeup_config_t) :
  initialized (s_ctx s) = false ->
  result_of (audio_manager_init arg s) = ESP_OK ->
  let s1 := state_of (audio_manager_init arg s) in
  exists cfg,
    arg = Some cfg /\
    audio_manager_get_wakeup_config (Some old) s1 =
      ((ESP_OK, Some (wakeup_config cfg)), s1, []) /\
    audio_manager_get_wakeup_config (Some old) s =
      ((ESP_ERR_INVALID_ARG, Some old), s, []) /\
    audio_manager_get_wakeup_config None s1 =
      ((ESP_ERR_INVALID_ARG, None), s1, []).
Proof.
  intros Hinit Hok. cbv zeta.
  destruct (init_ok_valid_config s arg Hinit Hok) as (cfg & -> & Hcb).
  destruct (init_success_run s cfg Hinit Hcb Hok)
    as (h1 & h2 & h3 & rb & h4 & h5 & w & _ & _ & _ & _ & _ & Hrun).
  cbv zeta in Hrun. rewrite Hrun. unfold state_of; cbn [fst snd].
  exists cfg. unfold audio_manager_get_wakeup_config. run_monad.
  rewrite Hinit. cbn. repeat apply conj; reflexivity.
Qed.

(** ** What the operations leave alone *)

Ltac close_wiring :=
  unfold same_wiring; cbn; repeat apply conj; reflexivity.

(** X7: no operation other than init and deinit changes the wiring: the
    [initialized] flag, the four module handles, the reference buffer, the
    hardware configuration, and the application's event callback and its
    context are the same after any control call, query or callback as
    before it, in whatever state it runs and whatever the collaborators
    answer. *)
Theorem only_lifecycle_changes_wiring (o : operation) s :
  is_lifecycle o = false ->
  same_wiring (s_ctx s) (s_ctx (state_of (exec o s))).
Proof.
  intros Hlife.
  destruct o as [cfg| | | | | | |p n| | | | |v| |cfg|cfg| | | |cb uc|e|e|p n];
    try discriminate Hlife; unfold exec, discard.
  - unfold audio_manager_start. run_monad. split_all; close_wiring.
  - unfold audio_manager_stop. run_monad. split_all; close_wiring.
  - unfold audio_manager_trigger_conversation. run_monad.
    split_all; close_wiring.
  - unfold audio_manager_start_recording. run_monad. split_all; close_wiring.
  - unfold audio_manager_stop_recording. run_monad. split_all; close_wiring.
  - unfold audio_manager_play_audio. run_monad. split_all; close_wiring.
  - unfold audio_manager_get_playback_free_space. run_monad.
    split_all; close_wiring.
  - unfold audio_manager_start_playback. run_monad. split_all; close_wiring.
  - unfold audio_manager_stop_playback. run_monad. split_all; close_wiring.
  - unfold audio_manager_clear_playback_buffer. run_monad.
    split_all; close_wiring.
  - unfold audio_manager_set_volume. run_monad. close_wiring.
  - unfold audio_manager_get_volume. run_monad. close_wiring.
  - unfold audio_manager_update_wakeup_config. run_monad.
    split_all; close_wiring.
  - unfold audio_manager_get_wakeup_config. run_monad. split_all; close_wiring.
  - unfold audio_manager_is_running. run_monad. close_wiring.
  - unfold audio_manager_is_recording. run_monad. close_wiring.
  - unfold audio_manager_is_playing. run_monad. split_all; close_wiring.
  - unfold audio_manager_set_record_callback. run_monad. close_wiring.
  - unfold button_event_handler. run_monad. split_all; close_wiring.
  - unfold afe_event_handler. run_monad. split_all; close_wiring.
  - unfold afe_record_handler. run_monad. split_all; close_wiring.
Qed.

(** X8: in every state the program can be in with the orchestrator not
    initialised, the control calls, the flag and configuration queries and
    deinit make no collaborator call and leave the whole state as it is
    (they only differ in the code they return). *)
Theorem uninitialized_control_is_inert (o : operation) s :
  reachable s ->
  initialized (s_ctx s) = false ->
  acts_when_initialized o = true ->
  exec o s = (tt, s, []).
Proof.
  intros Hreach Hinit Hact.
  destruct (reachable_ctx_inv s Hreach) as (Hf & _ & _).
  destruct (Hf Hinit) as [Hrun Hrec].
  destruct o as [cfg| | | | | | |p n| | | | |v| |cfg|cfg| | | |cb uc|e|e|p n];
    try discriminate Hact; unfold exec, discard.
  - unfold audio_manager_deinit. run_monad. rewrite Hinit. reflexivity.
  - unfold audio_manager_start. run_monad. rewrite Hinit. reflexivity.
  - unfold audio_manager_stop. run_monad. rewrite Hrun. reflexivity.
  - unfold audio_manager_trigger_conversation. run_monad.
    rewrite Hinit. reflexivity.
  - unfold audio_manager_start_recording. run_monad.
    rewrite Hinit. reflexivity.
  - unfold audio_manager_stop_recording. run_monad. rewrite Hrec. reflexivity.
  - unfold audio_manager_play_audio. run_monad. rewrite Hinit. reflexivity.
  - unfold audio_manager_get_playback_free_space. run_monad.
    rewrite Hinit. reflexivity.
  - unfold audio_manager_start_playback. run_monad. rewrite Hinit. reflexivity.
  - unfold audio_manager_stop_playback. run_monad. rewrite Hinit. reflexivity.
  - unfold audio_manager_clear_playback_buffer. run_monad.
    rewrite Hinit. reflexivity.
  - unfold audio_manager_get_volume. run_monad. reflexivity.
  - unfold audio_manager_update_wakeup_config. run_monad.
    rewrite Hinit. reflexivity.
  - unfold audio_manager_get_wakeup_config. run_monad.
    rewrite Hinit. reflexivity.
  - unfold audio_manager_is_running. run_monad. reflexivity.
  - unfold audio_manager_is_recording. run_monad. reflexivity.
Qed.

(** ** Volume *)

(** X9: for a [uint8_t] argument [v], set_volume stores [v] when it is at
    most 100 and 100 otherwise, in any state, initialised or not, and
    get_volume then returns that value; nothing else in the state changes
    and no collaborator is called. *)
Theorem set_volume_clamps_to_100 s (v : Z) :
  0 <= v < 2 ^ 8 ->
  let o := audio_manager_set_volume v s in
  result_of (audio_manager_get_volume (state_of o)) = Z.min v 100 /\
  state_of o = {| s_ctx := set_volume (Z.min v 100) (s_ctx s); world := world s |} /\
  calls_of o = [] /\
  calls_of (audio_manager_get_volume (state_of o)) = [].
Proof.
  intros Hv. cbv zeta.
  unfold audio_manager_set_volume, audio_manager_get_volume. run_monad.
  rewrite (Z.mod_small v (2 ^ 8) Hv).
  assert (Hmin : (if 100 <? v then 100 else v) = Z.min v 100).
  { destruct (Z.ltb_spec 100 v); lia. }
  rewrite Hmin. repeat apply conj; reflexivity.
Qed.

(** ** Listening and recording *)

(** X10: on an initialised context start returns ESP_OK and sets the
    listening flag without touching the recording flag or calling a
    collaborator, and a second start changes nothing; a recording begun
    while listening is ended by stop, which clears both flags. *)
Theorem start_then_stop_listening s :
  initialized (s_ctx s) = true ->
  let s1 := state_of (audio_manager_start s) in
  let s2 := state_of (audio_manager_start_recording s1) in
  let s3 := state_of (audio_manager_stop s2) in
  result_of (audio_manager_start s) = ESP_OK /\
  calls_of (audio_manager_start s) = [] /\
  running (s_ctx s1) = true /\
  recording (s_ctx s1) = recording (s_ctx s) /\
  audio_manager_start s1 = (ESP_OK, s1, []) /\
  running (s_ctx s2) = true /\ recording (s_ctx s2) = true /\
  result_of (audio_manager_stop s2) = ESP_OK /\
  running (s_ctx s3) = false /\ recording (s_ctx s3) = false /\
  same_wiring (s_ctx s) (s_ctx s3) /\ world s3 = world s.
Proof.
  intros Hinit. cbv zeta.
  unfold audio_manager_start, audio_manager_start_recording, audio_manager_stop.
  run_monad. rewrite Hinit. cbn.
  destruct (running (s_ctx s)) eqn:Hrun; cbn; rewrite ?Hinit, ?Hrun; cbn;
    rewrite ?Hinit; cbn; rewrite ?Hrun; cbn;
    unfold same_wiring; cbn; repeat apply conj; auto.
Qed.

(** X11: on an initialised context that is not recording, start_recording
    returns ESP_OK and sets the recording flag whether or not the
    orchestrator is listening, leaving the listening flag as it is and
    calling no collaborator; stop_recording then restores the state exactly,
    and stop_recording on a context that is not recording changes
    nothing. *)
Theorem recording_round_trip s :
  initialized (s_ctx s) = true ->
  recording (s_ctx s) = false ->
  let s1 := state_of (audio_manager_start_recording s) in
  audio_manager_start_recording s =
    (ESP_OK, {| s_ctx := set_recording true (s_ctx s); world := world s |}, []) /\
  running (s_ctx s1) = running (s_ctx s) /\
  audio_manager_stop_recording s1 = (ESP_OK, s, []) /\
  audio_manager_stop_recording s = (ESP_OK, s, []).
Proof.
  intros Hinit Hrec. cbv zeta.
  unfold audio_manager_start_recording, audio_manager_stop_recording.
  run_monad. rewrite Hinit, Hrec. cbn.
  repeat apply conj; try reflexivity.
  destruct s as [c w]. destruct c. cbn in *. subst. reflexivity.
Qed.

(** ** Events towards the application *)

(** X12: in every state the program can be in with the orchestrator
    initialised, trigger_conversation returns ESP_OK after calling the
    application's event callback, which is then never null, exactly once,
    with the discriminant AUDIO_MGR_EVENT_BUTTON_TRIGGER, a zero payload and
    the stored user context; it does so whatever the listening and
    recording flags are and leaves the context unchanged. *)
Theorem trigger_conversation_notifies_once s :
  reachable s ->
  initialized (s_ctx s) = true ->
  let o := audio_manager_trigger_conversation s in
  let cb := event_callback (config (s_ctx s)) in
  is_null cb = false /\
  result_of o = ESP_OK /\
  calls_of o =
    [Call_event_callback cb
       {| ev_type := AUDIO_MGR_EVENT_BUTTON_TRIGGER;
          ev_wakeup := {| wake_word_index := 0; volume_db := 0 |} |}
       (user_ctx (config (s_ctx s)))] /\
  s_ctx (state_of o) = s_ctx s.
Proof.
  intros Hreach Hinit. cbv zeta.
  destruct (reachable_ctx_inv s Hreach) as (_ & Hcb & _).
  specialize (Hcb Hinit).
  unfold audio_manager_trigger_conversation. run_monad.
  rewrite Hinit, Hcb. cbn. repeat apply conj; reflexivity.
Qed.

(** X13: with an event callback registered, [button_event_handler] calls
    it exactly once and leaves the context unchanged: with
    AUDIO_MGR_EVENT_BUTTON_TRIGGER for a press, with
    AUDIO_MGR_EVENT_BUTTON_RELEASE for a release, and for any other event
    value with the zero-initialised event (discriminant 0).  On an
    initialised context a press has the same effect as
    trigger_conversation: the same call and the same state. *)
Theorem button_events_relayed s (event : Z) (uc : ptr) :
  is_null (event_callback (config (s_ctx s))) = false ->
  let o := button_event_handler event uc s in
  let cb := event_callback (config (s_ctx s)) in
  let relayed t :=
    [Call_event_callback cb
       {| ev_type := t; ev_wakeup := {| wake_word_index := 0; volume_db := 0 |} |}
       (user_ctx (config (s_ctx s)))] in
  s_ctx (state_of o) = s_ctx s /\
  (event = BUTTON_EVENT_PRESS ->
   calls_of o = relayed AUDIO_MGR_EVENT_BUTTON_TRIGGER) /\
  (event <> BUTTON_EVENT_PRESS -> event = BUTTON_EVENT_RELEASE ->
   calls_of o = relayed AUDIO_MGR_EVENT_BUTTON_RELEASE) /\
  (event <> BUTTON_EVENT_PRESS -> event <> BUTTON_EVENT_RELEASE ->
   calls_of o = relayed 0) /\
  (initialized (s_ctx s) = true ->
   audio_manager_trigger_conversation s =
     (ESP_OK, state_of (button_event_handler BUTTON_EVENT_PRESS uc s),
      calls_of (button_event_handler BUTTON_EVENT_PRESS uc s))).
Proof.
  intros Hcb. cbv zeta.
  unfold button_event_handler, audio_manager_trigger_conversation.
  run_monad. rewrite Hcb. cbn. repeat apply conj.
  - reflexivity.
  - intros ->. rewrite Z.eqb_refl. reflexivity.
  - intros Hp ->. apply Z.eqb_neq in Hp. rewrite Hp, Z.eqb_refl. reflexivity.
  - intros Hp Hr. apply Z.eqb_neq in Hp, Hr. rewrite Hp, Hr. reflexivity.
  - intros Hinit. rewrite Hinit, Z.eqb_refl. reflexivity.
Qed.

(** X14: with an event callback registered, [afe_event_handler] relays
    every event that is not a wake-word detection with a zero payload,
    whatever payload the inbound event carries: a voice-activity start as
    AUDIO_MGR_EVENT_VAD_START, a voice-activity end as
    AUDIO_MGR_EVENT_VAD_END, and an event of any other type (the switch has
    no default) as the zero-initialised event.  It makes exactly that one
    call and leaves the context unchanged. *)
Theorem afe_vad_events_relayed s (event : afe_event_t) (uc : ptr) :
  is_null (event_callback (config (s_ctx s))) = false ->
  afe_type event <> AFE_EVENT_WAKEUP_DETECTED ->
  let o := afe_event_handler event uc s in
  let cb := event_callback (config (s_ctx s)) in
  let relayed t :=
    [Call_event_callback cb
       {| ev_type := t; ev_wakeup := {| wake_word_index := 0; volume_db := 0 |} |}
       (user_ctx (config (s_ctx s)))] in
  s_ctx (state_of o) = s_ctx s /\
  (afe_type event = AFE_EVENT_VAD_START ->
   calls_of o = relayed AUDIO_MGR_EVENT_VAD_START) /\
  (afe_type event <> AFE_EVENT_VAD_START -> afe_type event = AFE_EVENT_VAD_END ->
   calls_of o = relayed AUDIO_MGR_EVENT_VAD_END) /\
  (afe_type event <> AFE_EVENT_VAD_START -> afe_type event <> AFE_EVENT_VAD_END ->
   calls_of o = relayed 0).
Proof.
  intros Hcb Hw. cbv zeta. apply Z.eqb_neq in Hw.
  unfold afe_event_handler. run_monad. rewrite Hcb, Hw. cbn.
  repeat apply conj.
  - reflexivity.
  - intros Hs. rewrite Hs, Z.eqb_refl. reflexivity.
  - intros Hs He. apply Z.eqb_neq in Hs. rewrite Hs, He, Z.eqb_refl.
    reflexivity.
  - intros Hs He. apply Z.eqb_neq in Hs, He. rewrite Hs, He. reflexivity.
Qed.

(** ** Recorded audio towards the application *)

(** X15: once set_record_callback has registered a non-null callback,
    [afe_record_handler] passes every frame on to it, with the same sample
    pointer and count and the registered context, in exactly one call and
    without changing the context; this depends on no other field of the
    context, so neither on [recording] nor on [initialized].  Registering a
    null callback makes the handler drop the frames. *)
Theorem record_frames_forwarded s (callback uc : ptr) (pcm_data : pcm_ptr)
  (samples : Z) (x : ptr) :
  is_null callback = false ->
  let s1 := state_of (audio_manager_set_record_callback callback uc s) in
  calls_of (afe_record_handler pcm_data samples x s1) =
    [Call_record_callback callback pcm_data samples uc] /\
  s_ctx (state_of (afe_record_handler pcm_data samples x s1)) = s_ctx s1 /\
  (forall s', record_callback (s_ctx s') = callback ->
              record_ctx (s_ctx s') = uc ->
              calls_of (afe_record_handler pcm_data samples x s') =
                [Call_record_callback callback pcm_data samples uc]) /\
  afe_record_handler pcm_data samples x
    (state_of (audio_manager_set_record_callback NULL uc s)) =
    (tt, state_of (audio_manager_set_record_callback NULL uc s), []).
Proof.
  intros Hcb. cbv zeta.
  unfold afe_record_handler, audio_manager_set_record_callback. run_monad.
  cbn [record_callback record_ctx set_record_callback].
  rewrite Hcb. cbn. repeat apply conj; try reflexivity.
  intros s' H1 H2. rewrite H1, H2, Hcb. reflexivity.
Qed.

(** [audio_manager_init] never touches the record callback. *)
Lemma init_keeps_record_callback s (arg : option audio_mgr_config_t) :
  record_callback (s_ctx (state_of (audio_manager_init arg s))) =
    record_callback (s_ctx s) /\
  record_ctx (s_ctx (state_of (audio_manager_init arg s))) =
    record_ctx (s_ctx s).
Proof.
  destruct (initialized (s_ctx s)) eqn:Hinit.
  { rewrite (init_when_initialized s arg Hinit). auto. }
  destruct arg as [cfg|].
  2:{ rewrite (init_rejects_null_config s Hinit). auto. }
  destruct (is_null (event_callback cfg)) eqn:Hcb.
  { rewrite (init_rejects_null_callback s cfg Hinit Hcb). auto. }
  destruct (init_outcomes s cfg Hinit Hcb)
    as [H|[H|[H|[H|[H|H]]]]].
  - destruct H as (_ & _ & _ & Hc). rewrite Hc. auto.
  - destruct H as (h1 & _ & _ & _ & _ & Hc). rewrite Hc. auto.
  - destruct H as (h1 & h2 & _ & _ & _ & _ & _ & Hc). rewrite Hc. auto.
  - destruct H as (h1 & h2 & h3 & rb & _ & _ & _ & _ & _ & _ & Hc).
    rewrite Hc. auto.
  - destruct H as (h1 & h2 & h3 & rb & h4 & _ & _ & _ & _ & _ & _ & _ & Hc).
    rewrite Hc. auto.
  - destruct H as (h1 & h2 & h3 & rb & h4 & h5 & _ & _ & _ & _ & _ & _ & _ & _ & Hc).
    rewrite Hc. auto.
Qed.

(** X16: the record callback is kept by [audio_manager_init], whatever its
    argument and outcome, so it can be registered before initialisation;
    but [audio_manager_deinit] on an initialised context clears it with the
    rest of the context, and a following init does not bring it back: the
    frames the AFE delivers are then dropped until set_record_callback is
    called again. *)
Theorem record_callback_cleared_by_deinit s (arg : option audio_mgr_config_t)
  (pcm_data : pcm_ptr) (samples : Z) (x : ptr) :
  initialized (s_ctx s) = true ->
  let s1 := state_of (audio_manager_deinit s) in
  let s2 := state_of (audio_manager_init arg s1) in
  (forall s0 arg0,
     record_callback (s_ctx (state_of (audio_manager_init arg0 s0))) =
       record_callback (s_ctx s0) /\
     record_ctx (s_ctx (state_of (audio_manager_init arg0 s0))) =
       record_ctx (s_ctx s0)) /\
  record_callback (s_ctx s1) = NULL /\
  record_callback (s_ctx s2) = NULL /\
  afe_record_handler pcm_data samples x s2 = (tt, s2, []).
Proof.
  intros Hinit. cbv zeta.
  assert (H1 : s_ctx (state_of (audio_manager_deinit s)) = s_ctx_zero)
    by (rewrite deinit_ctx, Hinit; reflexivity).
  assert (H2 : record_callback
                 (s_ctx (state_of (audio_manager_init arg
                                     (state_of (audio_manager_deinit s))))) = NULL).
  { rewrite (proj1 (init_keeps_record_callback _ arg)), H1. reflexivity. }
  repeat apply conj.
  - intros s0 arg0. apply init_keeps_record_callback.
  - rewrite H1. reflexivity.
  - exact H2.
  - remember (state_of (audio_manager_init arg
                          (state_of (audio_manager_deinit s)))) as s2.
    unfold afe_record_handler. run_monad. rewrite H2. reflexivity.
Qed.

(** ** Wake-word configuration *)

(** X17: update_wakeup_config pushes to the AFE wrapper only the enable
    flag, the wake-word name, the model partition and the sensitivity: two
    configurations that agree on these four make the same call, get the
    same result and leave the collaborators in the same state, although
    each is stored whole, timeouts included. *)
Theorem update_wakeup_config_pushes_four_fields s
  (a b : audio_mgr_wakeup_config_t) :
  initialized (s_ctx s) = true ->
  wakeup_enabled a = wakeup_enabled b ->
  wake_word_name a = wake_word_name b ->
  model_partition a = model_partition b ->
  sensitivity a = sensitivity b ->
  let oa := audio_manager_update_wakeup_config (Some a) s in
  let ob := audio_manager_update_wakeup_config (Some b) s in
  calls_of oa = calls_of ob /\
  result_of oa = result_of ob /\
  world (state_of oa) = world (state_of ob) /\
  wakeup_config (config (s_ctx (state_of oa))) = a /\
  wakeup_config (config (s_ctx (state_of ob))) = b.
Proof.
  intros Hinit H1 H2 H3 H4. cbv zeta.
  assert (Hafe : afe_wakeup_of a = afe_wakeup_of b).
  { unfold afe_wakeup_of. rewrite H1, H2, H3, H4. reflexivity. }
  unfold audio_manager_update_wakeup_config. run_monad.
  rewrite Hinit. cbn. run_monad. rewrite Hafe.
  destruct (afe_wrapper_update_wakeup_config _ _ _) as [r w]. cbn.
  repeat apply conj; reflexivity.
Qed.

(** ** Playback control *)

(** X18: in every state the program can be in with the orchestrator
    initialised, the playback handle is not null, and start_playback,
    stop_playback, clear_playback_buffer and get_playback_free_space each
    make exactly one call, to the playback controller's function of the same
    purpose with that handle, return what it returns and leave the context
    unchanged; so the null-handle test of get_playback_free_space never
    decides. *)
Theorem playback_control_delegates s :
  reachable s ->
  initialized (s_ctx s) = true ->
  let h := playback_ctrl (s_ctx s) in
  is_null h = false /\
  (let r := playback_controller_start h (world s) in
   audio_manager_start_playback s =
     (fst r, {| s_ctx := s_ctx s; world := snd r |},
      [Call_playback_controller_start h (fst r)])) /\
  (let r := playback_controller_stop h (world s) in
   audio_manager_stop_playback s =
     (fst r, {| s_ctx := s_ctx s; world := snd r |},
      [Call_playback_controller_stop h (fst r)])) /\
  (let r := playback_controller_clear h (world s) in
   audio_manager_clear_playback_buffer s =
     (fst r, {| s_ctx := s_ctx s; world := snd r |},
      [Call_playback_controller_clear h (fst r)])) /\
  (let r := playback_controller_get_free_space h (world s) in
   audio_manager_get_playback_free_space s =
     (fst r, {| s_ctx := s_ctx s; world := snd r |},
      [Call_playback_controller_get_free_space h (fst r)])).
Proof.
  intros Hreach Hinit. cbv zeta.
  destruct (reachable_handles_live s Hreach Hinit) as (_ & Hpc & _ & _).
  unfold audio_manager_start_playback, audio_manager_stop_playback,
    audio_manager_clear_playback_buffer, audio_manager_get_playback_free_space.
  run_monad. rewrite Hinit, Hpc. cbn.
  destruct (playback_controller_start _ _), (playback_controller_stop _ _),
    (playback_controller_clear _ _), (playback_controller_get_free_space _ _).
  repeat apply conj; reflexivity.
Qed.

(** ** The application's configuration *)

(** X19: a configuration built by [audio_config_app_build] carries the
    event callback and user context it was given, and on an uninitialised
    context [audio_manager_init] rejects it with ESP_ERR_INVALID_ARG exactly
    when that callback is null; with a null [cfg] the builder writes
    nothing. *)
Theorem built_config_rejected_iff_null_callback s
  (old : audio_mgr_config_t) (event_cb uc : ptr) :
  initialized (s_ctx s) = false ->
  (exists cfg,
     audio_config_app_build (Some old) event_cb uc = Some cfg /\
     event_callback cfg = event_cb /\ user_ctx cfg = uc) /\
  (result_of
     (audio_manager_init (audio_config_app_build (Some old) event_cb uc) s) =
   ESP_ERR_INVALID_ARG <-> event_cb = NULL) /\
  audio_config_app_build None event_cb uc = None.
Proof.
  intros Hinit. split; [|split].
  - eexists. cbn. repeat apply conj; reflexivity.
  - cbn [audio_config_app_build].
    match goal with
    | |- context [audio_manager_init (Some ?c) s] => set (cfg := c)
    end.
    destruct (is_null event_cb) eqn:Hcb.
    + rewrite (init_rejects_null_callback s cfg Hinit Hcb).
      apply is_null_true in Hcb.
      split; intros _; [exact Hcb|reflexivity].
    + assert (Hne : event_cb <> NULL).
      { intros ->. discriminate Hcb. }
      destruct (init_valid_result s cfg Hinit Hcb) as [[Hr _]|[Hr _]];
        rewrite Hr; (split; [intros H; discriminate H|intros H; now elim Hne]).
  - reflexivity.
Qed.

(** ** Playback: the invalid-argument result *)


End Properties.

(** * The orchestrator on the bench *)

(** The bench states used below are states the program can be in. *)
Lemma bench_boot_reachable (b : nat) : reachable (bench_boot b).
Proof. apply reachable_boot. Qed.

Lemma bench_ready_reachable : reachable bench_ready.
Proof.
  replace bench_ready with (exec_all [Op_init bench_config] (bench_boot 5))
    by (vm_compute; reflexivity).
  apply reachable_exec_all, bench_boot_reachable.
Qed.

Lemma bench_recording_only_reachable : reachable bench_recording_only.
Proof.
  replace bench_recording_only
    with (exec_all [Op_init bench_config; Op_start_recording] (bench_boot 5))
    by (vm_compute; reflexivity).
  apply reachable_exec_all, bench_boot_reachable.
Qed.

Lemma bench_afe_failed_reachable : reachable bench_afe_failed.
Proof.
  replace bench_afe_failed with (exec_all [Op_init bench_config] (bench_boot 3))
    by (vm_compute; reflexivity).
  apply reachable_exec_all, bench_boot_reachable.
Qed.

Lemma bench_refusing_reachable : reachable bench_refusing.
Proof.
  apply (reachable_world bench_ready (world bench_refusing)).
  exact bench_ready_reachable.
Qed.

(** ** C1 *)

(** The fourth creation fails on a bench with three allocations: the
    playback controller and the I2S HAL are destroyed, in that order, and
    the call returns ESP_ERR_NO_MEM with the configuration stored and the
    volume at 80. *)
Lemma init_rollback_on_failure_witness :
  initialized (s_ctx (bench_boot 3)) = false /\
  In (AfeWrapper, NULL)
    (creations (calls_of (audio_manager_init (Some bench_cfg) (bench_boot 3)))) /\
  result_of (audio_manager_init (Some bench_cfg) (bench_boot 3)) = ESP_ERR_NO_MEM /\
  filter owned
    (destructions (calls_of (audio_manager_init (Some bench_cfg) (bench_boot 3)))) =
  rev (filter owned
         (created (calls_of (audio_manager_init (Some bench_cfg) (bench_boot 3))))) /\
  config (s_ctx (state_of (audio_manager_init (Some bench_cfg) (bench_boot 3)))) =
    bench_cfg /\
  volume (s_ctx (state_of (audio_manager_init (Some bench_cfg) (bench_boot 3)))) = 80.
Proof.
  assert (H1 : initialized (s_ctx (bench_boot 3)) = false) by reflexivity.
  assert (H3 : In (AfeWrapper, NULL)
                 (creations
                    (calls_of (audio_manager_init (Some bench_cfg) (bench_boot 3))))).
  { vm_compute. right; right; right; left; reflexivity. }
  pose proof (init_rollback_on_failure (bench_boot 3) bench_cfg H1
                (ex_intro _ AfeWrapper H3)) as T.
  cbv zeta in T.
  destruct T as (Tr & _ & Td & _ & _ & _ & _ & _ & Tc & Tv).
  exact (conj H1 (conj H3 (conj Tr (conj Td (conj Tc Tv))))).
Defined.

(** After that failed call the context is not what it was before it: the
    volume is 80, the configuration is stored, and the handles of the two
    destroyed modules are still in the context, with [initialized] false;
    and the reference buffer created at step 2 is not among the modules
    destroyed. *)
Lemma init_rollback_restores_context_counterexample :
  let s := bench_boot 3 in
  let o := audio_manager_init (Some bench_cfg) s in
  s_ctx s = s_ctx_zero /\
  result_of o = ESP_ERR_NO_MEM /\
  initialized (s_ctx (state_of o)) = false /\
  s_ctx (state_of o) <> s_ctx s /\
  volume (s_ctx (state_of o)) <> 0 /\
  i2s_hal (s_ctx (state_of o)) <> NULL /\
  playback_ctrl (s_ctx (state_of o)) <> NULL /\
  created (calls_of o) = [(I2sHal, 1%N); (RingBuffer, 2%N); (PlaybackCtrl, 3%N)] /\
  destructions (calls_of o) = [(PlaybackCtrl, 3%N); (I2sHal, 1%N)] /\
  destructions (calls_of o) <> rev (created (calls_of o)).
Proof.
  cbv zeta. repeat apply conj; try reflexivity.
  - intros H. apply (f_equal volume) in H. vm_compute in H. discriminate H.
  - vm_compute. discriminate.
  - vm_compute. discriminate.
  - vm_compute. discriminate.
  - vm_compute. discriminate.
Qed.

(** ** C2 *)

(** Initialised, not listening, recording: stop returns ESP_OK and the
    recording flag is still true. *)
Lemma stop_leaves_recording_counterexample :
  initialized (s_ctx bench_recording_only) = true /\
  running (s_ctx bench_recording_only) = false /\
  recording (s_ctx bench_recording_only) = true /\
  result_of (audio_manager_stop bench_recording_only) = ESP_OK /\
  recording (s_ctx (state_of (audio_manager_stop bench_recording_only))) <> false.
Proof.
  repeat apply conj; try reflexivity.
  vm_compute. discriminate.
Qed.

(** ** C3 *)

Lemma init_idempotent_witness :
  initialized (s_ctx bench_ready) = true /\
  audio_manager_init bench_config bench_ready = (ESP_OK, bench_ready, []) /\
  result_of (audio_manager_init bench_config (bench_boot 5)) = ESP_OK /\
  (forall k,
     creation_count k
       (calls_of (audio_manager_init bench_config (bench_boot 5)) ++
        calls_of (audio_manager_init bench_config bench_ready)) = 1%nat).
Proof.
  assert (H1 : initialized (s_ctx bench_ready) = true) by reflexivity.
  assert (H2 : initialized (s_ctx (bench_boot 5)) = false) by reflexivity.
  assert (H3 : state_of (audio_manager_init bench_config (bench_boot 5)) = bench_ready)
    by (vm_compute; reflexivity).
  destruct (init_idempotent bench_ready bench_config H1) as [T1 T2].
  destruct (T2 (bench_boot 5) bench_config H2 H3) as (T3 & T4 & _).
  exact (conj H1 (conj T1 (conj T3 T4))).
Defined.

(** ** C4 *)

Lemma init_rejects_absent_arguments_witness :
  initialized (s_ctx (bench_boot 5)) = false /\
  audio_manager_init None (bench_boot 5) = (ESP_ERR_INVALID_ARG, bench_boot 5, []) /\
  initialized (s_ctx (state_of (audio_manager_init None (bench_boot 5)))) = false.
Proof.
  assert (H1 : initialized (s_ctx (bench_boot 5)) = false) by reflexivity.
  exact (conj H1 (init_rejects_absent_arguments (bench_boot 5) None H1 I)).
Defined.

(** On the initialised bench a null [config] is answered with ESP_OK, and
    [initialized] is true afterwards. *)
Lemma init_absent_config_counterexample :
  initialized (s_ctx bench_ready) = true /\
  result_of (audio_manager_init None bench_ready) <> ESP_ERR_INVALID_ARG /\
  result_of (audio_manager_init None bench_ready) = ESP_OK /\
  initialized (s_ctx (state_of (audio_manager_init None bench_ready))) <> false.
Proof.
  repeat apply conj; try reflexivity.
  - vm_compute. discriminate.
  - vm_compute. discriminate.
Qed.

(** ** C5 *)



(** ** C6 *)

(** Word 2 at -12 dB reaches the application's callback unchanged. *)
Lemma afe_wakeup_event_relayed_witness :
  afe_type bench_wakeup_event = AFE_EVENT_WAKEUP_DETECTED /\
  calls_of (afe_event_handler bench_wakeup_event NULL bench_ready) =
    [Call_event_callback 4096%N
       {| ev_type := AUDIO_MGR_EVENT_WAKEUP_DETECTED;
          ev_wakeup := {| wake_word_index := 2; volume_db := -12 |} |}
       NULL].
Proof.
  assert (H1 : afe_type bench_wakeup_event = AFE_EVENT_WAKEUP_DETECTED)
    by reflexivity.
  destruct (afe_wakeup_event_relayed bench_ready bench_wakeup_event NULL H1)
    as (_ & _ & T).
  exact (conj H1 (proj1 (T eq_refl))).
Defined.

(** ** C7 *)

Lemma deinit_tears_down_in_reverse_witness :
  reachable bench_ready /\
  initialized (s_ctx bench_ready) = true /\
  calls_of (audio_manager_deinit bench_ready) =
    [Call_playback_controller_stop 3%N ESP_OK;
     Call_button_handler_destroy 5%N;
     Call_afe_wrapper_destroy 4%N;
     Call_playback_controller_destroy 3%N;
     Call_i2s_hal_destroy 1%N] /\
  s_ctx (state_of (audio_manager_deinit bench_ready)) = s_ctx_zero.
Proof.
  pose proof (deinit_tears_down_in_reverse bench_ready bench_ready_reachable) as T.
  cbv zeta in T.
  change (initialized (s_ctx bench_ready)) with true in T.
  cbv iota in T.
  destruct T as (T1 & _ & _ & _ & T2 & _).
  exact (conj bench_ready_reachable (conj eq_refl (conj T1 T2))).
Defined.

(** ** C8 *)

Lemma init_fast_path_precedes_validation_witness :
  initialized (s_ctx bench_ready) = true /\
  audio_manager_init None bench_ready = (ESP_OK, bench_ready, []) /\
  result_of (audio_manager_init bench_config bench_ready) <> ESP_ERR_INVALID_ARG.
Proof.
  assert (H1 : initialized (s_ctx bench_ready) = true) by reflexivity.
  destruct (init_fast_path_precedes_validation bench_ready H1) as (T1 & _ & T2).
  exact (conj H1 (conj T1 (T2 bench_config))).
Defined.

(** ** C9 *)

(** C9: the code breaks the claim on the context a failed initialisation
    leaves behind.  On the bench, [audio_manager_init] whose fourth
    creation (the AFE wrapper) fails returns ESP_ERR_NO_MEM after destroying
    the playback controller it had created at address 3, but keeps that
    address in [playback_ctrl]; the context is uninitialised, and
    [audio_manager_is_playing], which has no initialised test, calls the
    is-running query with the destroyed handle 3 instead of the null handle,
    while get_playback_free_space on the same context returns 0 without a
    call. *)
Theorem is_playing_after_failed_init_passes_destroyed_handle :
  let o := audio_manager_init bench_config (bench_boot 3) in
  let s := state_of o in
  result_of o = ESP_ERR_NO_MEM /\
  reachable s /\
  initialized (s_ctx s) = false /\
  In (PlaybackCtrl, 3%N) (created (calls_of o)) /\
  In (PlaybackCtrl, 3%N) (destructions (calls_of o)) /\
  playback_ctrl (s_ctx s) = 3%N /\
  calls_of (audio_manager_is_playing s) =
    [Call_playback_controller_is_running 3%N false] /\
  ~ (exists r,
       calls_of (audio_manager_is_playing s) =
         [Call_playback_controller_is_running NULL r]) /\
  audio_manager_get_playback_free_space s = (0, s, []).
Proof.
  cbv zeta.
  assert (Hs : state_of (audio_manager_init bench_config (bench_boot 3)) =
               bench_afe_failed) by (vm_compute; reflexivity).
  rewrite Hs.
  repeat apply conj; try (vm_compute; reflexivity).
  - exact bench_afe_failed_reachable.
  - vm_compute. right; right; left; reflexivity.
  - vm_compute. left; reflexivity.
  - intros [r H]. vm_compute in H. discriminate H.
Qed.

(** ** C10 *)

(** The AFE update answers ESP_ERR_NO_MEM; the call returns it, and the
    stored configuration is the new one. *)
Lemma update_wakeup_config_stores_before_push_witness :
  initialized (s_ctx bench_refusing) = true /\
  result_of (audio_manager_update_wakeup_config (Some bench_wakeup_config)
               bench_refusing) = ESP_ERR_NO_MEM /\
  calls_of (audio_manager_update_wakeup_config (Some bench_wakeup_config)
              bench_refusing) =
    [Call_afe_wrapper_update_wakeup_config 4%N
       {| afe_wakeup_enabled := true; afe_wake_word_name := "hi esp";
          afe_model_partition := "model"; afe_sensitivity := 3 |}
       ESP_ERR_NO_MEM] /\
  wakeup_config
    (config
       (s_ctx
          (state_of
             (audio_manager_update_wakeup_config (Some bench_wakeup_config)
                bench_refusing)))) = bench_wakeup_config /\
  result_of
    (audio_manager_get_wakeup_config
       (Some (wakeup_config (config (s_ctx bench_refusing))))
       (state_of
          (audio_manager_update_wakeup_config (Some bench_wakeup_config)
             bench_refusing))) = (ESP_OK, Some bench_wakeup_config).
Proof.
  assert (H1 : initialized (s_ctx bench_refusing) = true) by reflexivity.
  destruct (update_wakeup_config_stores_before_push bench_refusing
              bench_wakeup_config H1) as (T1 & Tc & _ & T2 & _ & T3).
  exact (conj H1 (conj T1 (conj Tc (conj T2 (T3 _))))).
Defined.

(** ** Further runs on the bench *)

Lemma bench_listening_reachable : reachable bench_listening.
Proof.
  replace bench_listening
    with (exec_all [Op_init bench_config; Op_start; Op_start_recording]
            (bench_boot 5))
    by (vm_compute; reflexivity).
  apply reachable_exec_all, bench_boot_reachable.
Qed.

Lemma reachable_flags_require_initialized_witness :
  reachable bench_recording_only /\
  recording (s_ctx bench_recording_only) = true /\
  initialized (s_ctx bench_recording_only) = true.
Proof.
  destruct (reachable_flags_require_initialized bench_recording_only
              bench_recording_only_reachable) as [T _].
  exact (conj bench_recording_only_reachable
           (conj eq_refl (T (or_intror eq_refl)))).
Defined.

Lemma reachable_volume_in_range_witness :
  reachable bench_ready /\
  0 <= result_of (audio_manager_get_volume bench_ready) <= 100.
Proof.
  exact (conj bench_ready_reachable
           (proj1 (reachable_volume_in_range bench_ready bench_ready_reachable))).
Defined.

Lemma init_success_wiring_witness :
  initialized (s_ctx (bench_boot 5)) = false /\
  result_of (audio_manager_init bench_config (bench_boot 5)) = ESP_OK /\
  initialized (s_ctx (state_of (audio_manager_init bench_config (bench_boot 5))))
    = true /\
  volume (s_ctx (state_of (audio_manager_init bench_config (bench_boot 5)))) = 80.
Proof.
  assert (H1 : initialized (s_ctx (bench_boot 5)) = false) by reflexivity.
  assert (H2 : result_of (audio_manager_init bench_config (bench_boot 5)) = ESP_OK)
    by (vm_compute; reflexivity).
  pose proof (init_success_wiring (bench_boot 5) bench_config H1 H2) as T.
  cbv zeta in T.
  destruct T as (cfg & h2 & pc & ac & _ & _ & _ & _ & _ & _ & _ & _ & _ & _ & _
                 & _ & _ & _ & _ & _ & Ti & _ & Tv & _).
  exact (conj H1 (conj H2 (conj Ti Tv))).
Defined.

Lemma init_then_deinit_releases_owned_modules_witness :
  initialized (s_ctx (bench_boot 5)) = false /\
  result_of (audio_manager_init bench_config (bench_boot 5)) = ESP_OK /\
  destructions
    (calls_of
       (audio_manager_deinit
          (state_of (audio_manager_init bench_config (bench_boot 5))))) =
  rev (filter owned
         (created (calls_of (audio_manager_init bench_config (bench_boot 5))))) /\
  s_ctx
    (state_of
       (audio_manager_deinit
          (state_of (audio_manager_init bench_config (bench_boot 5))))) =
  s_ctx_zero.
Proof.
  assert (H1 : initialized (s_ctx (bench_boot 5)) = false) by reflexivity.
  assert (H2 : result_of (audio_manager_init bench_config (bench_boot 5)) = ESP_OK)
    by (vm_compute; reflexivity).
  pose proof (init_then_deinit_releases_owned_modules (bench_boot 5)
                bench_config H1 H2) as T.
  cbv zeta in T. destruct T as (_ & T1 & T2 & _).
  exact (conj H1 (conj H2 (conj T1 T2))).
Defined.

Lemma get_wakeup_config_returns_init_config_witness :
  initialized (s_ctx (bench_boot 5)) = false /\
  result_of (audio_manager_init bench_config (bench_boot 5)) = ESP_OK /\
  exists cfg,
    bench_config = Some cfg /\
    audio_manager_get_wakeup_config (Some bench_wakeup_config)
      (state_of (audio_manager_init bench_config (bench_boot 5))) =
    ((ESP_OK, Some (wakeup_config cfg)),
     state_of (audio_manager_init bench_config (bench_boot 5)), []).
Proof.
  assert (H1 : initialized (s_ctx (bench_boot 5)) = false) by reflexivity.
  assert (H2 : result_of (audio_manager_init bench_config (bench_boot 5)) = ESP_OK)
    by (vm_compute; reflexivity).
  pose proof (get_wakeup_config_returns_init_config (bench_boot 5) bench_config
                bench_wakeup_config H1 H2) as T.
  cbv zeta in T. destruct T as (cfg & T1 & T2 & _).
  exact (conj H1 (conj H2 (ex_intro _ cfg (conj T1 T2)))).
Defined.

Lemma only_lifecycle_changes_wiring_witness :
  is_lifecycle (Op_set_volume 150) = false /\
  same_wiring (s_ctx bench_ready)
    (s_ctx (state_of (exec (Op_set_volume 150) bench_ready))).
Proof.
  exact (conj eq_refl
           (only_lifecycle_changes_wiring (Op_set_volume 150) bench_ready eq_refl)).
Defined.

Lemma uninitialized_control_is_inert_witness :
  reachable bench_afe_failed /\
  initialized (s_ctx bench_afe_failed) = false /\
  acts_when_initialized Op_start = true /\
  exec Op_start bench_afe_failed = (tt, bench_afe_failed, []).
Proof.
  exact (conj bench_afe_failed_reachable
           (conj eq_refl
              (conj eq_refl
                 (uninitialized_control_is_inert Op_start bench_afe_failed
                    bench_afe_failed_reachable eq_refl eq_refl)))).
Defined.

Lemma set_volume_clamps_to_100_witness :
  0 <= 150 < 2 ^ 8 /\
  result_of
    (audio_manager_get_volume
       (state_of (audio_manager_set_volume 150 (bench_boot 0)))) = Z.min 150 100.
Proof.
  assert (H1 : 0 <= 150 < 2 ^ 8) by (split; [discriminate|reflexivity]).
  exact (conj H1 (proj1 (set_volume_clamps_to_100 (bench_boot 0) 150 H1))).
Defined.

Lemma start_then_stop_listening_witness :
  initialized (s_ctx bench_ready) = true /\
  running (s_ctx (state_of (audio_manager_start bench_ready))) = true /\
  recording
    (s_ctx
       (state_of
          (audio_manager_stop
             (state_of
                (audio_manager_start_recording
                   (state_of (audio_manager_start bench_ready))))))) = false.
Proof.
  assert (H1 : initialized (s_ctx bench_ready) = true) by reflexivity.
  pose proof (start_then_stop_listening bench_ready H1) as T.
  cbv zeta in T.
  destruct T as (_ & _ & T1 & _ & _ & _ & _ & _ & _ & T2 & _).
  exact (conj H1 (conj T1 T2)).
Defined.

Lemma recording_round_trip_witness :
  initialized (s_ctx bench_ready) = true /\
  recording (s_ctx bench_ready) = false /\
  audio_manager_stop_recording
    (state_of (audio_manager_start_recording bench_ready)) =
  (ESP_OK, bench_ready, []).
Proof.
  assert (H1 : initialized (s_ctx bench_ready) = true) by reflexivity.
  assert (H2 : recording (s_ctx bench_ready) = false) by reflexivity.
  pose proof (recording_round_trip bench_ready H1 H2) as T.
  cbv zeta in T. destruct T as (_ & _ & T1 & _).
  exact (conj H1 (conj H2 T1)).
Defined.

Lemma trigger_conversation_notifies_once_witness :
  reachable bench_listening /\
  initialized (s_ctx bench_listening) = true /\
  calls_of (audio_manager_trigger_conversation bench_listening) =
    [Call_event_callback 4096%N
       {| ev_type := AUDIO_MGR_EVENT_BUTTON_TRIGGER;
          ev_wakeup := {| wake_word_index := 0; volume_db := 0 |} |}
       NULL].
Proof.
  assert (H1 : initialized (s_ctx bench_listening) = true) by reflexivity.
  pose proof (trigger_conversation_notifies_once bench_listening
                bench_listening_reachable H1) as T.
  cbv zeta in T. destruct T as (_ & _ & T1 & _).
  exact (conj bench_listening_reachable (conj H1 T1)).
Defined.

Lemma button_events_relayed_witness :
  is_null (event_callback (config (s_ctx bench_ready))) = false /\
  calls_of (button_event_handler BUTTON_EVENT_RELEASE NULL bench_ready) =
    [Call_event_callback 4096%N
       {| ev_type := AUDIO_MGR_EVENT_BUTTON_RELEASE;
          ev_wakeup := {| wake_word_index := 0; volume_db := 0 |} |}
       NULL].
Proof.
  assert (H1 : is_null (event_callback (config (s_ctx bench_ready))) = false)
    by reflexivity.
  pose proof (button_events_relayed bench_ready BUTTON_EVENT_RELEASE NULL H1) as T.
  cbv zeta in T. destruct T as (_ & _ & T1 & _).
  assert (H2 : BUTTON_EVENT_RELEASE <> BUTTON_EVENT_PRESS)
    by (intros H; discriminate H).
  exact (conj H1 (T1 H2 eq_refl)).
Defined.

Lemma afe_vad_events_relayed_witness :
  is_null (event_callback (config (s_ctx bench_ready))) = false /\
  afe_type bench_vad_start_event <> AFE_EVENT_WAKEUP_DETECTED /\
  calls_of (afe_event_handler bench_vad_start_event NULL bench_ready) =
    [Call_event_callback 4096%N
       {| ev_type := AUDIO_MGR_EVENT_VAD_START;
          ev_wakeup := {| wake_word_index := 0; volume_db := 0 |} |}
       NULL].
Proof.
  assert (H1 : is_null (event_callback (config (s_ctx bench_ready))) = false)
    by reflexivity.
  assert (H2 : afe_type bench_vad_start_event <> AFE_EVENT_WAKEUP_DETECTED)
    by (intros H; discriminate H).
  pose proof (afe_vad_events_relayed bench_ready bench_vad_start_event NULL
                H1 H2) as T.
  cbv zeta in T. destruct T as (_ & T1 & _).
  exact (conj H1 (conj H2 (T1 eq_refl))).
Defined.

Lemma record_frames_forwarded_witness :
  is_null 8192%N = false /\
  calls_of
    (afe_record_handler (Some [1; 2]) 2 NULL
       (state_of (audio_manager_set_record_callback 8192%N 7%N (bench_boot 0)))) =
  [Call_record_callback 8192%N (Some [1; 2]) 2 7%N].
Proof.
  assert (H1 : is_null 8192%N = false) by reflexivity.
  pose proof (record_frames_forwarded (bench_boot 0) 8192%N 7%N (Some [1; 2]) 2
                NULL H1) as T.
  cbv zeta in T. destruct T as (T1 & _).
  exact (conj H1 T1).
Defined.

Lemma record_callback_cleared_by_deinit_witness :
  initialized (s_ctx bench_ready) = true /\
  record_callback (s_ctx (state_of (audio_manager_deinit bench_ready))) = NULL /\
  record_callback
    (s_ctx
       (state_of
          (audio_manager_init bench_config
             (state_of (audio_manager_deinit bench_ready))))) = NULL.
Proof.
  assert (H1 : initialized (s_ctx bench_ready) = true) by reflexivity.
  pose proof (record_callback_cleared_by_deinit bench_ready bench_config
                (Some [1; 2]) 2 NULL H1) as T.
  cbv zeta in T. destruct T as (_ & T1 & T2 & _).
  exact (conj H1 (conj T1 T2)).
Defined.

Lemma update_wakeup_config_pushes_four_fields_witness :
  initialized (s_ctx bench_ready) = true /\
  calls_of
    (audio_manager_update_wakeup_config (Some bench_wakeup_config) bench_ready) =
  calls_of
    (audio_manager_update_wakeup_config
       (Some {| wakeup_enabled := true; wake_word_name := "hi esp";
                model_partition := "model"; sensitivity := 3;
                wakeup_timeout_ms := 100; wakeup_end_delay_ms := 200 |})
       bench_ready).
Proof.
  assert (H1 : initialized (s_ctx bench_ready) = true) by reflexivity.
  pose proof (update_wakeup_config_pushes_four_fields bench_ready
                bench_wakeup_config
                {| wakeup_enabled := true; wake_word_name := "hi esp";
                   model_partition := "model"; sensitivity := 3;
                   wakeup_timeout_ms := 100; wakeup_end_delay_ms := 200 |}
                H1 eq_refl eq_refl eq_refl eq_refl) as T.
  cbv zeta in T. destruct T as (T1 & _).
  exact (conj H1 T1).
Defined.

Lemma playback_control_delegates_witness :
  reachable bench_ready /\
  initialized (s_ctx bench_ready) = true /\
  is_null (playback_ctrl (s_ctx bench_ready)) = false.
Proof.
  assert (H1 : initialized (s_ctx bench_ready) = true) by reflexivity.
  pose proof (playback_control_delegates bench_ready bench_ready_reachable H1) as T.
  cbv zeta in T. destruct T as (T1 & _).
  exact (conj bench_ready_reachable (conj H1 T1)).
Defined.

Lemma built_config_rejected_iff_null_callback_witness :
  initialized (s_ctx (bench_boot 5)) = false /\
  result_of
    (audio_manager_init
       (audio_config_app_build (Some audio_mgr_config_zero) NULL NULL)
       (bench_boot 5)) = ESP_ERR_INVALID_ARG.
Proof.
  assert (H1 : initialized (s_ctx (bench_boot 5)) = false) by reflexivity.
  destruct (built_config_rejected_iff_null_callback (bench_boot 5)
              audio_mgr_config_zero NULL NULL H1) as (_ & T & _).
  exact (conj H1 (proj2 T eq_refl)).
Defined.
